(** * filebulk: the index store, its filters and the duplicate reports

    A shallow embedding of [filebulk/index.py] and of the evaluation
    functions of [filebulk/__main__.py], with the properties of the
    specification that they decide.

    Conventions.
    - A Python [str] is a [string] of bytes, the UTF-8 text, which is
      also how SQLite stores and compares TEXT.  A file name that is not
      UTF-8 is the [string] of its bytes; Python keeps such bytes as
      surrogate escapes, which it cannot encode ([py.encodable]).  Where
      Python or SQLite speak of one character ([?], [_]) the model has
      one byte; the two agree on ASCII text.
    - A Python [dict] whose iteration order is observable is an
      association list in insertion order ([py.dict_set]); a Python
      [set] is a [gset].
    - The table [entry] is the list of its rows in rowid order, which is
      the order of insertion.
    - The library functions [hashlib.md5] and [os.path.relpath] are
      parameters; [os.path] is [posixpath].
    - A loop that need not end is run on fuel, and [None] is the answer
      when the fuel runs out. *)

From Stdlib Require Import ZArith String Ascii List Lia.
From stdpp Require Import gmap strings list sorting pretty.

Set Warnings "-register-all,-abstract-large-number".
Local Open Scope string_scope.
Local Open Scope list_scope.

(** ** Python built-ins used by the program *)
Module py.

(** [str.lower] on the ASCII letters, which is also the folding of case
    that [LIKE] applies.  The only use in the program is a comparison
    with ["thumbs.db"], and no character outside ASCII lower-cases to one
    of its letters. *)
Definition lower_ascii (c : ascii) : ascii :=
  let n := N_of_ascii c in
  if ((65 <=? n) && (n <=? 90))%N then ascii_of_N (n + 32) else c.

Fixpoint lower (s : string) : string :=
  match s with
  | "" => ""
  | String c s' => String (lower_ascii c) (lower s')
  end.

(** [s.replace(old, new)] for a one-character [old]. *)
Fixpoint replace (old : ascii) (new : string) (s : string) : string :=
  match s with
  | "" => ""
  | String c s' =>
      if decide (c = old) then new +:+ replace old new s'
      else String c (replace old new s')
  end.

(** [s.rfind(c)]: the index of the last [c], or [-1]. *)
Fixpoint rfind (c : ascii) (s : string) : Z :=
  match s with
  | "" => -1
  | String a s' =>
      let k := rfind c s' in
      if (0 <=? k)%Z then (k + 1)%Z
      else if decide (a = c) then 0%Z else (-1)%Z
  end.

(** [s[:i]] and [s[i:]] for [0 <= i]. *)
Definition slice_to (i : Z) (s : string) : string :=
  substring 0 (Z.to_nat i) s.
Definition slice_from (i : Z) (s : string) : string :=
  substring (Z.to_nat i) (String.length s - Z.to_nat i) s.

(** [s.rstrip(c)]. *)
Fixpoint rstrip (c : ascii) (s : string) : string :=
  match s with
  | "" => ""
  | String a s' =>
      match rstrip c s' with
      | "" => if decide (a = c) then "" else String a ""
      | r => String a r
      end
  end.

(** [c * n]. *)
Fixpoint repeat_char (c : ascii) (n : nat) : string :=
  match n with
  | O => ""
  | S n' => String c (repeat_char c n')
  end.

Definition startswith (s : string) (c : ascii) : bool :=
  match s with
  | String a _ => bool_decide (a = c)
  | "" => false
  end.

Definition endswith (s : string) (c : ascii) : bool :=
  match String.rev s with
  | String a _ => bool_decide (a = c)
  | "" => false
  end.

(** [s.startswith(prefix)] for a string [prefix]. *)
Definition startswith_str (s prefix : string) : bool := String.prefix prefix s.

(** The exceptions that the program raises or lets through. *)
Inductive exception : Type :=
| OSError
| RuntimeError (msg : string)
| OverflowError
| UnicodeEncodeError.

(** [s.encode("utf-8")] succeeds: the bytes are well-formed UTF-8, with
    no overlong form, no surrogate and nothing above U+10FFFF.  Bytes
    that are not stand for the surrogate escapes of a file name. *)
Definition between (lo hi : N) (c : ascii) : bool :=
  ((lo <=? N_of_ascii c) && (N_of_ascii c <=? hi))%N.

Definition second_of_3 (a b : ascii) : bool :=
  if between 224 224 a then between 160 191 b
  else if between 237 237 a then between 128 159 b
  else between 128 191 b.

Definition second_of_4 (a b : ascii) : bool :=
  if between 240 240 a then between 144 191 b
  else if between 244 244 a then between 128 143 b
  else between 128 191 b.

Fixpoint encodable (s : string) : bool :=
  match s with
  | "" => true
  | String a s1 =>
      if between 0 127 a then encodable s1
      else
        match s1 with
        | "" => false
        | String b s2 =>
            if between 194 223 a then between 128 191 b && encodable s2
            else
              match s2 with
              | "" => false
              | String c s3 =>
                  if between 224 239 a
                  then second_of_3 a b && between 128 191 c && encodable s3
                  else
                    match s3 with
                    | "" => false
                    | String d s4 =>
                        between 240 244 a && second_of_4 a b
                        && between 128 191 c && between 128 191 d && encodable s4
                    end
              end
        end
  end.

(** *** Insertion-ordered dictionaries *)
Section dict.
Context {V : Type}.

Definition dict := list (string * V).

Fixpoint dict_get (d : dict) (k : string) : option V :=
  match d with
  | [] => None
  | (k', v) :: d' => if decide (k' = k) then Some v else dict_get d' k
  end.

(** [d[k] = v]: an existing key keeps its place. *)
Fixpoint dict_set (d : dict) (k : string) (v : V) : dict :=
  match d with
  | [] => [(k, v)]
  | (k', v') :: d' =>
      if decide (k' = k) then (k, v) :: d'
      else (k', v') :: dict_set d' k v
  end.

(** [{k: v for k, v in items}]. *)
Definition dict_of (items : list (string * V)) : dict :=
  foldl (fun d kv => dict_set d kv.1 kv.2) [] items.

Definition keys (d : dict) : list string := d.*1.
End dict.
Global Arguments dict : clear implicits.

(** *** [sorted(xs, key=...)] and [itertools.groupby] on string keys *)
Section by_key.
Context {A : Type} (key : A -> string).

Fixpoint insert_by (x : A) (l : list A) : list A :=
  match l with
  | [] => [x]
  | y :: l' =>
      if String.leb (key x) (key y) then x :: y :: l'
      else y :: insert_by x l'
  end.

(** A stable sort: equal keys keep their relative order. *)
Definition sorted (l : list A) : list A := foldr insert_by [] l.

(** Maximal runs of consecutive elements with equal keys. *)
Fixpoint groupby (l : list A) : list (string * list A) :=
  match l with
  | [] => []
  | x :: l' =>
      match groupby l' with
      | (k, g) :: gs =>
          if decide (key x = k) then (k, x :: g) :: gs
          else (key x, [x]) :: (k, g) :: gs
      | [] => [(key x, [x])]
      end
  end.
End by_key.

End py.

(** ** [posixpath] *)
Module posixpath.

Definition sep : ascii := "/"%char.

(** [os.path.split]. *)
Definition split (p : string) : string * string :=
  let i := (py.rfind sep p + 1)%Z in
  let head := py.slice_to i p in
  let tail := py.slice_from i p in
  if bool_decide (head <> "")
     && bool_decide (head <> py.repeat_char sep (String.length head))
  then (py.rstrip sep head, tail)
  else (head, tail).

Definition dirname (p : string) : string := (split p).1.

Definition basename (p : string) : string :=
  py.slice_from (py.rfind sep p + 1) p.

(** [os.path.join(a, b)]. *)
Definition join (a b : string) : string :=
  if py.startswith b sep then b
  else if bool_decide (a = "") || py.endswith a sep then a +:+ b
  else a +:+ String sep b.

End posixpath.


(** ** [fnmatch.translate] followed by [re.compile(...).match]

    The regular expression that [fnmatch.translate] builds is kept as the
    list of its pieces; [matches] decides whether the expression,
    anchored by [\Z], matches a whole string.  A bracket expression is a
    set of characters and ranges, complemented by a leading [!]. *)
Module fnmatch.

Inductive piece : Type :=
| STAR                    (* [*]: any run of characters *)
| ANY                     (* [?]: any one character *)
| LIT (c : ascii)         (* [re.escape(c)] *)
| SET (stuff : string).   (* [[stuff]] *)

Fixpoint find (c : ascii) (s : string) : option nat :=
  match s with
  | "" => None
  | String a s' => if decide (a = c) then Some O else S <$> find c s'
  end.

(** The search for the closing bracket, in offsets after the opening
    one: skip a [!], skip a [[]] that comes first, then look for [[]]. *)
Definition bracket_end (rest : string) : option nat :=
  let j := if py.startswith rest "!" then 1%nat else 0%nat in
  let j := if py.startswith (py.slice_from (Z.of_nat j) rest) "]"
           then S j else j in
  (fun k => (j + k)%nat) <$> find "]" (py.slice_from (Z.of_nat j) rest).

(** [skip] is the number of characters already consumed by a bracket
    expression. *)
Fixpoint translate_from (skip : nat) (pat : string) : list piece :=
  match pat with
  | "" => []
  | String c rest =>
      match skip with
      | S k => translate_from k rest
      | O =>
          if decide (c = "*"%char) then STAR :: translate_from O rest
          else if decide (c = "?"%char) then ANY :: translate_from O rest
          else if decide (c = "["%char) then
            match bracket_end rest with
            | None => LIT "[" :: translate_from O rest
            | Some j => SET (py.slice_to (Z.of_nat j) rest)
                          :: translate_from (S j) rest
            end
          else LIT c :: translate_from O rest
      end
  end.

Definition translate (pat : string) : list piece := translate_from O pat.

Fixpoint set_items (body : string) (c : ascii) : bool :=
  match body with
  | "" => false
  | String lo (String "-" (String hi rest)) =>
      ((N_of_ascii lo <=? N_of_ascii c)%N && (N_of_ascii c <=? N_of_ascii hi)%N)
      || set_items rest c
  | String a rest => bool_decide (c = a) || set_items rest c
  end.

Definition set_match (stuff : string) (c : ascii) : bool :=
  match stuff with
  | String "!" body => negb (set_items body c)
  | _ => set_items stuff c
  end.

Fixpoint matches (ps : list piece) (s : string) : bool :=
  match ps with
  | [] => bool_decide (s = "")
  | STAR :: ps' =>
      (fix star (s : string) : bool :=
         matches ps' s
         || match s with
            | "" => false
            | String _ s' => star s'
            end) s
  | ANY :: ps' =>
      match s with
      | "" => false
      | String _ s' => matches ps' s'
      end
  | LIT c :: ps' =>
      match s with
      | "" => false
      | String a s' => bool_decide (a = c) && matches ps' s'
      end
  | SET stuff :: ps' =>
      match s with
      | "" => false
      | String a s' => set_match stuff a && matches ps' s'
      end
  end.

(** [fnmatch.fnmatchcase(name, pat)]: [name] matches the pattern. *)
Definition fnmatchcase (name pat : string) : bool := matches (translate pat) name.

(** [re.compile("|".join(translate(p) for p in pats))]: the
    alternatives, each anchored at both ends. *)
Definition Pattern : Type := list (list piece).

Definition compile (pats : list string) : Pattern := translate <$> pats.

Definition re_match (re : Pattern) (s : string) : bool :=
  existsb (fun ps => matches ps s) re.

End fnmatch.

(** ** SQLite *)
Module sqlite3.

(** [X LIKE P]: [%] is any run of characters, [_] any one character,
    and letters of ASCII match in either case.  No ESCAPE clause is
    given, so no character of [P] is quoted. *)
Fixpoint like (pat : string) (s : string) : bool :=
  match pat with
  | "" => bool_decide (s = "")
  | String p pat' =>
      if decide (p = "%"%char) then
        (fix star (s : string) : bool :=
           like pat' s
           || match s with
              | "" => false
              | String _ s' => star s'
              end) s
      else if decide (p = "_"%char) then
        match s with
        | "" => false
        | String _ s' => like pat' s'
        end
      else
        match s with
        | "" => false
        | String a s' =>
            bool_decide (py.lower_ascii a = py.lower_ascii p) && like pat' s'
        end
  end.

(** A row of the table [entry (filepath TEXT, filesize INTEGER,
    md5hash TEXT)]. *)
Definition Row : Type := string * Z * string.
Definition filepath (r : Row) : string := r.1.1.
Definition filesize (r : Row) : Z := r.1.2.
Definition md5hash (r : Row) : string := r.2.

(** The condition that [Filter.__init__] writes as SQL text. *)
Inductive Where : Type :=
| TRUE
| LIKE (pat : string)       (* [filePath LIKE 'pat' COLLATE utf8_general_ci] *)
| NOT_LIKE (pat : string)   (* [filePath NOT LIKE 'pat' COLLATE utf8_general_ci] *)
| OR (es : list Where)      (* [(e1) OR (e2) OR ...] *)
| AND (es : list Where).    (* [(e1) AND (e2) AND ...] *)

Fixpoint eval (w : Where) (r : Row) : bool :=
  match w with
  | TRUE => true
  | LIKE pat => like pat (filepath r)
  | NOT_LIKE pat => negb (like pat (filepath r))
  | OR es => existsb (fun e => eval e r) es
  | AND es => forallb (fun e => eval e r) es
  end.

(** A connection of the [sqlite3] module in its default isolation
    level: rows that are committed, and the rows as the open
    transaction sees them, if one is open. *)
Record Connection : Type := {
  committed : list Row;
  pending : option (list Row)
}.

Definition rows (c : Connection) : list Row :=
  default (committed c) (pending c).

(** The statement [INSERT INTO entry ... VALUES (?, ?, ?)] run with the
    row bound to it: opens a transaction when none is. *)
Definition insert (c : Connection) (r : Row) : Connection :=
  {| committed := committed c; pending := Some (rows c ++ [r]) |}.

(** Binding the row to the three placeholders, one after the other: a
    [str] must be encodable and an [int] must fit a signed 64-bit
    integer.  The answer is the exception of the first value that cannot
    be bound. *)
Definition bind_parameters (r : Row) : option py.exception :=
  if negb (py.encodable (filepath r)) then Some py.UnicodeEncodeError
  else if negb ((- 2 ^ 63 <=? filesize r) && (filesize r <? 2 ^ 63))%Z
       then Some py.OverflowError
  else if negb (py.encodable (md5hash r)) then Some py.UnicodeEncodeError
  else None.

(** [conn.execute(insert_sql, row)].  The transaction is begun before
    the row is bound, so it is open also when the binding raises and
    nothing is inserted. *)
Definition execute_insert (c : Connection) (r : Row) : Connection * option py.exception :=
  match bind_parameters r with
  | Some e => ({| committed := committed c; pending := Some (rows c) |}, Some e)
  | None => (insert c r, None)
  end.

Definition commit (c : Connection) : Connection :=
  {| committed := rows c; pending := None |}.

Definition rollback (c : Connection) : Connection :=
  {| committed := committed c; pending := None |}.

(** [Connection.__exit__]: commit without an exception, roll back with
    one. *)
Definition exit_ (c : Connection) (raised : bool) : Connection :=
  if raised then rollback c else commit c.

End sqlite3.

(** ** [filebulk/index.py] *)
Module index.

Definition _whitecard_to_like (wc : string) : string :=
  py.replace "?" "_" (py.replace "*" "%" (py.replace "_" "__" (py.replace "%" "%%" wc))).

Record Entry : Type := {
  filePath : string;
  fileSize : Z;
  md5Hash : string
}.

(** [Index.tuple_getter] and [starmap(Entry, ...)]. *)
Definition tuple_getter (e : Entry) : sqlite3.Row :=
  (filePath e, fileSize e, md5Hash e).

Definition Entry_of_row (r : sqlite3.Row) : Entry :=
  {| filePath := r.1.1; fileSize := r.1.2; md5Hash := r.2 |}.

Module Filter.

(** The compiled expressions are [None] for an empty pattern list.  The
    field [where_] is the text of [self.where], read as SQL.  The
    patterns are spliced into that text between single quotes, so the
    text is this condition only for patterns that can stand there, those
    called [quotable] below: with a single quote in a pattern the text
    is another statement or none. *)
Record t : Type := {
  includes : option fnmatch.Pattern;
  excludes : option fnmatch.Pattern;
  where_ : sqlite3.Where
}.

Definition init (includes excludes : list string) : t :=
  let exprs : list sqlite3.Where := [] in
  let '(inc, exprs) :=
    match includes with
    | _ :: _ =>
        (Some (fnmatch.compile includes),
         exprs ++ [sqlite3.OR ((fun include => sqlite3.LIKE (_whitecard_to_like include)) <$> includes)])
    | [] => (None, exprs)
    end in
  let '(exc, exprs) :=
    match excludes with
    | _ :: _ =>
        (Some (fnmatch.compile excludes),
         exprs ++ [sqlite3.AND ((fun exclude => sqlite3.NOT_LIKE (_whitecard_to_like exclude)) <$> excludes)])
    | [] => (None, exprs)
    end in
  {| includes := inc;
     excludes := exc;
     where_ := match exprs with
               | _ :: _ => sqlite3.AND exprs
               | [] => sqlite3.TRUE
               end |}.

Definition test (self : t) (path : string) : bool :=
  if match excludes self with
     | Some re => fnmatch.re_match re path
     | None => false
     end
  then false
  else match includes self with
       | None => true
       | Some re => fnmatch.re_match re path
       end.

Definition sql (self : t) : sqlite3.Where := where_ self.

End Filter.

Module Index.

Record t : Type := {
  conn : sqlite3.Connection;
  root : string
}.

(** [Index.new]: a fresh database file with the empty table [entry].
    The statements that create the table and its index are not part of
    a transaction. *)
Definition new (root : string) : t :=
  {| conn := {| sqlite3.committed := []; sqlite3.pending := None |};
     root := root |}.

(** [add]: the index after the call, and the exception raised, if any. *)
Definition add (self : t) (e : Entry) : t * option py.exception :=
  let '(c, raised) := sqlite3.execute_insert (conn self) (tuple_getter e) in
  ({| conn := c; root := root self |}, raised).

(** [__exit__]; [raised] tells whether its arguments carry an
    exception. *)
Definition exit_ (self : t) (raised : bool) : t :=
  {| conn := sqlite3.exit_ (conn self) raised; root := root self |}.

Definition table (self : t) : list sqlite3.Row := sqlite3.rows (conn self).

(** [SELECT md5hash FROM entry GROUP BY md5hash HAVING count(filepath) > 1]. *)
Definition having_count_gt_1 (tbl : list sqlite3.Row) : list string :=
  filter (fun h => (1 < length (filter (fun r => sqlite3.md5hash r = h) tbl))%nat)
         (remove_dups (sqlite3.md5hash <$> tbl)).

(** [SELECT ... FROM entry WHERE md5hash IN (...) ORDER BY md5hash],
    before the columns are projected.  Rows with equal [md5hash] stay in
    rowid order, as they do when the rows are read through
    [entry_hash_index]. *)
Definition select_duplicates (tbl : list sqlite3.Row) : list sqlite3.Row :=
  py.sorted sqlite3.md5hash
    (filter (fun r => sqlite3.md5hash r ∈ having_count_gt_1 tbl) tbl).

Definition duplicates (self : t) : py.dict (list string) :=
  let result : list (string * string) :=
    (fun r => (sqlite3.md5hash r, sqlite3.filepath r)) <$> select_duplicates (table self) in
  py.dict_of ((fun kv : string * list (string * string) =>
                 (kv.1, (fun item => item.2) <$> kv.2))
              <$> py.groupby (fun item => item.1) result).

(** The columns are selected in the order [filepath, filesize, md5hash]
    and the key of [groupby] is [itemgetter(0)]. *)
Definition duplicate_entries (self : t) : py.dict (list Entry) :=
  let result : list sqlite3.Row := select_duplicates (table self) in
  py.dict_of ((fun kv : string * list sqlite3.Row =>
                 (kv.1, Entry_of_row <$> kv.2))
              <$> py.groupby (fun item => item.1.1) result).

Definition entries (self : t) : list Entry :=
  Entry_of_row <$> table self.

Definition unique_hashes (self : t) (filter_ : Filter.t) : gset string :=
  list_to_set (sqlite3.md5hash <$>
    filter (fun r => sqlite3.eval (Filter.sql filter_) r = true) (table self)).

(** [hash] is bound to the placeholder of the statement; the hashes that
    the program looks up are hashes read from a store. *)
Definition find_filepaths_for_hash (self : t) (hash : string) : list string :=
  sqlite3.filepath <$> filter (fun r => sqlite3.md5hash r = hash) (table self).

(** An index opened on stored rows, as [Index.from_file] gives. *)
Definition from_rows (tbl : list sqlite3.Row) (root : string) : t :=
  {| conn := {| sqlite3.committed := tbl; sqlite3.pending := None |};
     root := root |}.

End Index.

End index.

(** ** [filebulk/__main__.py] *)
Module main.
Import index.

(** [path_split_all]: the [while True] loop, run for at most [fuel]
    iterations; [None] when the fuel does not suffice. *)
Fixpoint path_split_all_loop (fuel : nat) (path : string) (l : list string)
  : option (list string) :=
  match fuel with
  | O => None
  | S fuel' =>
      let '(path, name) := posixpath.split path in
      if decide (path = "") then Some l
      else path_split_all_loop fuel' path (l ++ [path])
  end.

Definition path_split_all (fuel : nat) (path : string) : option (list string) :=
  path_split_all_loop fuel path [].

Definition has_parent_with_same_hash (path hash : string) (dirs : py.dict string) : bool :=
  let parent := posixpath.dirname path in
  if decide (parent <> "") then bool_decide (py.dict_get dirs parent = Some hash)
  else false.

(** [for x in xs: body(x)] over a state, stopping at the first
    exception. *)
Definition for_each {S A : Type} (body : A -> S -> S * option py.exception)
  : list A -> S -> S * option py.exception :=
  fix loop (xs : list A) (s : S) : S * option py.exception :=
    match xs with
    | [] => (s, None)
    | x :: xs' =>
        match body x s with
        | (s', None) => loop xs' s'
        | (s', Some e) => (s', Some e)
        end
    end.

(** What [os.scandir] and [open] find: a regular file with its bytes, a
    directory with its entries, or something that is neither.  [None]
    stands for a file that cannot be opened or a directory that cannot
    be listed. *)
Inductive DirEntry : Type :=
| File (name : string) (data : option string)
| Dir (name : string) (listing : option (list DirEntry))
| Other (name : string).

Definition name (entry : DirEntry) : string :=
  match entry with
  | File n _ | Dir n _ | Other n => n
  end.

Section library.

(** [hashlib.md5(data).hexdigest()]. *)
Variable md5_hexdigest : string -> string.

(** [os.path.relpath(path, start)]. *)
Variable relpath : string -> string -> string.

(** [d[pathPart].update(data)] on a [defaultdict(hashlib.md5)]: a
    hasher is the bytes it was fed. *)
Definition update (d : py.dict string) (pathPart data : string) : py.dict string :=
  py.dict_set d pathPart (default "" (py.dict_get d pathPart) +:+ data).

Definition feed_entry (fuel : nat) (d : py.dict string) (entry : Entry)
  : option (py.dict string) :=
  if decide (py.lower (posixpath.basename (filePath entry)) <> "thumbs.db") then
    parts ← path_split_all fuel (filePath entry);
    Some (foldl (fun d pathPart => update d pathPart (md5Hash entry)) d parts)
  else Some d.

(** The first loop of [eval_dir_dups]. *)
Definition feed_all (fuel : nat) (entries : list Entry) : option (py.dict string) :=
  foldl (fun acc entry => d ← acc; feed_entry fuel d entry) (Some []) entries.

(** [{path: hash.hexdigest() for path, hash in d.items()}]. *)
Definition eval_hashes (d : py.dict string) : py.dict string :=
  py.dict_of ((fun item => (item.1, md5_hexdigest item.2)) <$> d).

(** The comprehension reads the dictionary it is about to replace. *)
Definition filter_single_sub_folders (d : py.dict string) : py.dict string :=
  py.dict_of (filter (fun item => has_parent_with_same_hash item.1 item.2 d = false) d).

Definition find_duplicates (d : py.dict string) : py.dict (list string) :=
  py.dict_of
    (filter (fun k_paths => (1 < length k_paths.2)%nat)
       ((fun hash_paths : string * list (string * string) =>
           (hash_paths.1, (fun path => path.1) <$> hash_paths.2))
        <$> py.groupby (fun item => item.2) (py.sorted (fun item => item.2) d))).

Definition eval_dir_dups (fuel : nat) (index : Index.t)
  : option (py.dict (list string)) :=
  d ← feed_all fuel (Index.entries index);
  let d := eval_hashes d in
  let d := filter_single_sub_folders d in
  Some (find_duplicates d).

Definition entry_for_path (self : Index.t) (filePath : string) (data : option string)
  : py.exception + Entry :=
  match data with
  | None => inl py.OSError
  | Some bytes =>
      inr {| filePath := relpath filePath (Index.root self);
             fileSize := Z.of_nat (String.length bytes);
             md5Hash := md5_hexdigest bytes |}
  end.

(** One round of the loop of [index_dir], for the entry [entry] of the
    directory [dir]. *)
Fixpoint index_entry (filter_ : Filter.t) (dir : string) (entry : DirEntry)
  (index : Index.t) {struct entry} : Index.t * option py.exception :=
  let path := posixpath.join dir (name entry) in
  if negb (Filter.test filter_ path) then (index, None)
  else
    match entry with
    | File _ data =>
        match entry_for_path index path data with
        | inl e => (index, Some e)
        | inr e => Index.add index e
        end
    | Dir _ None => (index, Some py.OSError)
    | Dir _ (Some listing) => for_each (index_entry filter_ path) listing index
    | Other _ => (index, None)
    end.

Definition index_dir (filter_ : Filter.t) (dir : string)
  (listing : option (list DirEntry)) (index : Index.t) : Index.t * option py.exception :=
  match listing with
  | None => (index, Some py.OSError)
  | Some listing => for_each (index_entry filter_ dir) listing index
  end.

(** The command [index]: the database it leaves, and the exception it
    raised or the status it returned. *)
Definition index (root : string) (listing : option (list DirEntry))
  (includes excludes : list string) : sqlite3.Connection * (py.exception + Z) :=
  let filter_ := Filter.init includes excludes in
  let index0 := Index.new root in
  let '(index1, raised) := index_dir filter_ root listing index0 in
  let index2 := Index.exit_ index1 (bool_decide (raised <> None)) in
  (Index.conn index2,
   match raised with
   | Some e => inl e
   | None => inr 0%Z
   end).

End library.

Definition eval_missing (left right : Index.t) (filter_ : Filter.t)
  : py.exception + gmap string (list string) :=
  let left_hashes := Index.unique_hashes left filter_ in
  let right_hashes := Index.unique_hashes right filter_ in
  let missing := right_hashes ∖ left_hashes in
  if (5000 <? Z.of_nat (size missing))%Z
  then inl (py.RuntimeError "Abort: too many hashes")
  else inr (set_to_map (fun hash => (hash, Index.find_filepaths_for_hash right hash)) missing).

(** [prefix_dedup]: the list as [inp.sort()] leaves it, and the set
    returned.  The [continue] belongs to the inner loop, whose rounds
    have no effect of their own. *)
Definition prefix_dedup (inp : list string) : list string * gset string :=
  let inp := py.sorted (fun value => value) inp in
  (inp,
   foldl (fun (result : gset string) (value : string) =>
            let _ := foldl (fun (_ : unit) (entry : string) =>
                              if py.startswith_str value entry then tt else tt)
                       tt (elements result) in
            {[ value ]} ∪ result)
     ∅ inp).

(** [print_dict_result]: the lines printed.  [i] is the index that
    [enumerate] gives and [n] is [len(d)]. *)
Fixpoint print_dict_loop (i : nat) (items : list (string * list string)) (n : nat)
  : list string :=
  match items with
  | [] => []
  | (hash, dups) :: items' =>
      if (500 <? i)%nat then
        [".. and " +:+ pretty (Z.of_nat n - 500)%Z +:+ " more elements .."]
      else
        ("== " +:+ hash +:+ " ==")
          :: ((fun dup => String "009" dup) <$> dups)
          ++ print_dict_loop (S i) items' n
  end.

Definition print_dict_result (d : py.dict (list string)) : list string :=
  print_dict_loop 0 d (length d) ++ ["-> " +:+ pretty (length d)].

(** The sum that the command [dedupsize] prints; [None] stands for the
    [IndexError] of [dups[0]] on an empty group. *)
Definition dedupsize (index : Index.t) : option Z :=
  let all_dups := Index.duplicate_entries index in
  foldl (fun (size : option Z) (item : string * list Entry) =>
           size ← size; first ← head item.2; Some (size + fileSize first)%Z)
    (Some 0%Z) all_dups.

End main.


(** ** The store during a session *)

(** [idx'] comes after [idx] in a session: the committed rows are the
    same, and the rows seen through the connection have only grown at
    the end. *)
Definition extends (idx idx' : index.Index.t) : Prop :=
  sqlite3.committed (index.Index.conn idx') = sqlite3.committed (index.Index.conn idx)
  /\ index.Index.root idx' = index.Index.root idx
  /\ exists new, index.Index.table idx' = index.Index.table idx ++ new.

(** An entry that [add] can bind to its statement: both texts can be
    encoded and the size fits a signed 64-bit integer. *)
Definition storable (e : index.Entry) : Prop :=
  py.encodable (index.filePath e) = true
  /\ (- 2 ^ 63 <= index.fileSize e < 2 ^ 63)%Z
  /\ py.encodable (index.md5Hash e) = true.

(** ** Patterns that can be spliced into a statement *)

(** [Filter.__init__] writes a pattern between single quotes into the
    text of the condition.  The text is the condition [Filter.where_]
    when the pattern has no single quote, which would end the literal,
    and no NUL, and can be encoded: [execute] refuses a statement with a
    NUL or with a surrogate escape.  The bounds of SQLite on the length
    of a pattern and on the depth of an expression are left aside. *)
Fixpoint unquoted (pat : string) : bool :=
  match pat with
  | "" => true
  | String c pat' =>
      negb (bool_decide (c ∈ ["'"; "000"]%char)) && unquoted pat'
  end.

Definition quotable (pat : string) : bool := py.encodable pat && unquoted pat.

(** ** Patterns read alike by [fnmatch] and by [LIKE] *)


(** ** Relative paths and their ancestors *)

(** A path is absolute when it starts with the separator. *)
Definition absolute (path : string) : Prop := py.startswith path posixpath.sep = true.
Definition relative (path : string) : Prop := py.startswith path posixpath.sep = false.




(** Entries that [eval_dir_dups] leaves out. *)
Definition noise (e : index.Entry) : Prop :=
  py.lower (posixpath.basename (index.filePath e)) = "thumbs.db".

(** The composite hash that [eval_dir_dups] computes for the directory
    [dir], if the index has a file beneath it. *)
Definition dir_hash (md5_hexdigest : string -> string) (fuel : nat)
  (idx : index.Index.t) (dir : string) : option string :=
  d ← main.feed_all fuel (index.Index.entries idx);
  py.dict_get (main.eval_hashes md5_hexdigest d) dir.

(** A directory that the aggregator keeps for grouping: it has the
    composite hash [h], and its parent, if it has one, has another
    composite hash or none. *)
Definition kept (md5_hexdigest : string -> string) (fuel : nat)
  (idx : index.Index.t) (dir h : string) : Prop :=
  dir_hash md5_hexdigest fuel idx dir = Some h
  /\ (posixpath.dirname dir = ""
      \/ dir_hash md5_hexdigest fuel idx (posixpath.dirname dir) <> Some h).

(** ** The files of a tree and the files beneath a directory *)

(** The regular files of a directory entry with their paths and bytes,
    in the order of a depth-first walk; what cannot be opened or listed
    contributes nothing. *)
Fixpoint files_of (dir : string) (entry : main.DirEntry) : list (string * string) :=
  let path := posixpath.join dir (main.name entry) in
  match entry with
  | main.File _ (Some bytes) => [(path, bytes)]
  | main.File _ None => []
  | main.Dir _ (Some listing) => flat_map (files_of path) listing
  | main.Dir _ None => []
  | main.Other _ => []
  end.

(** Every file beneath the entry can be opened and every directory
    listed. *)
Fixpoint readable (entry : main.DirEntry) : bool :=
  match entry with
  | main.File _ data => bool_decide (data <> None)
  | main.Dir _ (Some listing) => forallb readable listing
  | main.Dir _ None => false
  | main.Other _ => true
  end.

(** The entry is not noise and [dir] is one of the directories that the
    ancestor walk finds above it. *)
Definition is_beneath (fuel : nat) (dir : string) (e : index.Entry) : bool :=
  bool_decide (~ noise e)
  && match main.path_split_all fuel (index.filePath e) with
     | Some parts => bool_decide (dir ∈ parts)
     | None => false
     end.

(** A pattern without [*], [?] and [[]. *)
Fixpoint literal (pat : string) : bool :=
  match pat with
  | "" => true
  | String c pat' =>
      negb (bool_decide (c ∈ ["*"; "?"; "["]%char)) && literal pat'
  end.

(** ** Sample data *)
Module scenarios.

(** [n] rows with pairwise different hashes. *)
Definition many_rows (n : nat) : list sqlite3.Row :=
  (fun i : nat => ("f" +:+ pretty i, 0%Z, pretty i)) <$> seq 0 n.

(** Two trees: the right one has a content that the left one lacks,
    in a text file and in a copy of it. *)
Definition left_index : index.Index.t :=
  index.Index.from_rows [("x", 1%Z, "02129b")] "left".

Definition right_index : index.Index.t :=
  index.Index.from_rows
    [("x", 1%Z, "02129b"); ("y.txt", 1%Z, "57cec4"); ("z.bin", 1%Z, "57cec4")] "right".

Definition missing_on_left : gmap string (list string) :=
  set_to_map
    (fun hash => (hash, index.Index.find_filepaths_for_hash right_index hash))
    ({["57cec4"]} : gset string).

(** Two directories with the same file, one of them three levels deep. *)
Definition nested_index : index.Index.t :=
  index.Index.from_rows
    [("a/b/c/x.txt", 5%Z, "5d41"); ("d/x.txt", 5%Z, "5d41")] "root".

End scenarios.

(** * Properties *)

Example split_ex1 : posixpath.split "a/b/c.txt" = ("a/b", "c.txt").
Proof. reflexivity. Qed.
Example split_ex2 : posixpath.split "/a" = ("/", "a").
Proof. reflexivity. Qed.
Example split_ex3 : posixpath.split "a//b" = ("a", "b").
Proof. reflexivity. Qed.
Example split_ex4 : posixpath.split "a/b/" = ("a/b", "").
Proof. reflexivity. Qed.
Example split_ex5 : posixpath.split "//" = ("//", "").
Proof. reflexivity. Qed.
Example split_ex6 : posixpath.split "a" = ("", "a").
Proof. reflexivity. Qed.
Example sorted_ex : py.sorted fst [("b", 1); ("a", 2); ("b", 3); ("a", 4)]
                    = [("a", 2); ("a", 4); ("b", 1); ("b", 3)].
Proof. reflexivity. Qed.


(** ** Sorting and grouping by key *)
Lemma strict_sorted_NoDup (l : list string) :
  StronglySorted (strict String.le) l -> NoDup l.
Proof.
  induction 1 as [|x l _ IH Hx]; constructor; [|done].
  intros Hin. rewrite Forall_forall in Hx.
  by apply (irreflexivity (strict String.le) x), Hx.
Qed.

Section by_key_facts.
Context {A : Type} (key : A -> string).

Local Abbreviation key_le := (fun x y : A => String.le (key x) (key y)).

Lemma leb_true_le (s1 s2 : string) : String.leb s1 s2 = true <-> String.le s1 s2.
Proof. unfold String.le. by rewrite Is_true_true. Qed.

Lemma leb_false_lt (s1 s2 : string) :
  String.leb s1 s2 = false -> String.le s2 s1 /\ s1 <> s2.
Proof.
  intros Hf. split.
  - destruct (total String.le s1 s2) as [H|H]; [|done].
    apply leb_true_le in H. congruence.
  - intros ->. assert (String.le s2 s2) as H by done.
    apply leb_true_le in H. congruence.
Qed.

Lemma insert_by_filter (k : string) (x : A) (l : list A) :
  filter (fun y => key y = k) (py.insert_by key x l)
  = filter (fun y => key y = k) (x :: l).
Proof.
  induction l as [|y l IH]; [done|]. simpl.
  destruct (String.leb (key x) (key y)) eqn:Hxy; [done|].
  apply leb_false_lt in Hxy as [_ Hne].
  rewrite (filter_cons _ y), IH, !(filter_cons _ x), (filter_cons _ y).
  repeat case_decide; simplify_eq; done.
Qed.

Lemma sorted_stable (k : string) (l : list A) :
  filter (fun y => key y = k) (py.sorted key l) = filter (fun y => key y = k) l.
Proof.
  induction l as [|x l IH]; [done|]. unfold py.sorted in *. simpl.
  rewrite insert_by_filter, !filter_cons, IH. done.
Qed.

Lemma insert_by_Permutation (x : A) (l : list A) : py.insert_by key x l ≡ₚ x :: l.
Proof.
  induction l as [|y l IH]; [done|]. simpl.
  destruct (String.leb (key x) (key y)); [done|].
  rewrite IH. apply Permutation_swap.
Qed.

Lemma sorted_Permutation (l : list A) : py.sorted key l ≡ₚ l.
Proof.
  induction l as [|x l IH]; [done|]. unfold py.sorted in *. simpl.
  by rewrite insert_by_Permutation, IH.
Qed.

Lemma elem_of_sorted (x : A) (l : list A) : x ∈ py.sorted key l <-> x ∈ l.
Proof. by rewrite sorted_Permutation. Qed.

Lemma insert_by_StronglySorted (x : A) (l : list A) :
  StronglySorted key_le l -> StronglySorted key_le (py.insert_by key x l).
Proof.
  induction 1 as [|y l Hl IH Hy]; simpl.
  - repeat constructor.
  - destruct (String.leb (key x) (key y)) eqn:Hxy.
    + apply leb_true_le in Hxy. constructor; [by constructor|].
      constructor; [done|]. eapply Forall_impl; [exact Hy|].
      intros z Hz. simpl in *. by etrans.
    + apply leb_false_lt in Hxy as [Hyx _]. constructor; [done|].
      rewrite insert_by_Permutation. by constructor.
Qed.

Lemma sorted_StronglySorted (l : list A) : StronglySorted key_le (py.sorted key l).
Proof.
  induction l as [|x l IH]; [constructor|].
  by apply insert_by_StronglySorted.
Qed.

(** What [groupby] yields on any list: non-empty runs that share their
    key and concatenate to the list. *)
Lemma groupby_mjoin (l : list A) : mjoin ((py.groupby key l).*2) = l.
Proof.
  induction l as [|x l IH]; [done|]. simpl.
  destruct (py.groupby key l) as [|[k g] gs]; simpl in *; [by subst|].
  case_decide; simpl; by rewrite <- IH.
Qed.

Lemma groupby_runs (l : list A) :
  Forall (fun kg => kg.2 <> [] /\ Forall (fun x => key x = kg.1) kg.2) (py.groupby key l).
Proof.
  induction l as [|x l IH]; [constructor|]. simpl.
  destruct (py.groupby key l) as [|[k g] gs]; simpl in *.
  - repeat constructor; done.
  - inversion_clear IH as [|?? [Hne Hg] Hgs]. case_decide; subst.
    + constructor; [|done]. split; [done|]. by constructor.
    + constructor; [by repeat constructor|]. by constructor.
Qed.

Lemma groupby_keys_elem (l : list A) (k : string) :
  k ∈ (py.groupby key l).*1 <-> exists x, x ∈ l /\ key x = k.
Proof.
  split.
  - intros ([k' g] & -> & Hin)%list_elem_of_fmap.
    pose proof (groupby_runs l) as Hr. rewrite Forall_forall in Hr.
    destruct (Hr _ Hin) as [Hne Hg]. simpl in *.
    destruct g as [|x g]; [done|]. exists x. split.
    + rewrite <- (groupby_mjoin l). apply list_elem_of_join.
      exists (x :: g). split; [left|]. apply list_elem_of_fmap. by exists (k', x :: g).
    + by inversion Hg.
  - intros (x & Hin & <-). induction l as [|y l IH]; [by apply elem_of_nil in Hin|].
    simpl. apply elem_of_cons in Hin as [->|Hin].
    + destruct (py.groupby key l) as [|[k g] gs]; simpl; [left|].
      case_decide; subst; left.
    + specialize (IH Hin). destruct (py.groupby key l) as [|[k g] gs]; simpl in *.
      { by apply elem_of_nil in IH. }
      case_decide; subst; simpl; [done|]. by right.
Qed.

(** On a list sorted by key the keys of the runs strictly ascend. *)
Lemma groupby_keys_ascend (l : list A) :
  StronglySorted key_le l ->
  StronglySorted (strict String.le) (py.groupby key l).*1.
Proof.
  induction 1 as [|x l Hl IH Hx]; [constructor|]. simpl.
  pose proof (groupby_keys_elem l) as Hk.
  destruct (py.groupby key l) as [|[k g] gs]; simpl in *.
  { repeat constructor. }
  case_decide as Hxk; simpl; [by subst|].
  constructor; [done|]. rewrite Forall_forall. intros k' Hk'.
  apply Hk in Hk' as (y & Hy & <-). rewrite Forall_forall in Hx.
  inversion_clear IH as [|?? _ Hkk]. rewrite Forall_forall in Hkk.
  assert (String.le (key x) k) as Hle.
  { destruct (proj1 (Hk k)) as (z & Hz & <-); [left|]. by apply Hx. }
  assert (strict String.le (key x) k) as Hlt.
  { apply strict_spec_alt. done. }
  destruct (decide (key y = k)) as [->|Hne]; [done|].
  assert (key y ∈ k :: gs.*1) as [?|Hin]%elem_of_cons
    by (apply Hk; eauto); [done|].
  etrans; [exact Hlt|]. by apply Hkk.
Qed.

Lemma groupby_distinct_filter (gs : list (string * list A)) (k : string) (g : list A) :
  NoDup gs.*1 ->
  Forall (fun kg => Forall (fun x => key x = kg.1) kg.2) gs ->
  (k, g) ∈ gs ->
  filter (fun x => key x = k) (mjoin gs.*2) = g.
Proof.
  induction gs as [|[k' g'] gs IH]; intros Hnd Hall Hin.
  { by apply elem_of_nil in Hin. }
  csimpl in *. apply NoDup_cons in Hnd as [Hk' Hnd].
  inversion_clear Hall as [|?? Hg' Hgs]. csimpl in *.
  rewrite filter_app.
  assert (forall (k0 : string) (g0 : list A), Forall (fun x => key x = k0) g0 ->
            filter (fun x => key x = k) g0 = if decide (k0 = k) then g0 else []) as Hf.
  { intros k0 g0 H0. induction H0 as [|z g0 Hz _ IH0]; [by case_decide|].
    rewrite filter_cons, IH0. repeat case_decide; congruence. }
  assert (forall gs0 : list (string * list A),
            Forall (fun kg => Forall (fun x => key x = kg.1) kg.2) gs0 ->
            k ∉ gs0.*1 -> filter (fun x => key x = k) (mjoin gs0.*2) = []) as Hnone.
  { induction 1 as [|[k0 g0] gs0 H0 _ IH0]; [done|]. csimpl. intros Hn.
    apply not_elem_of_cons in Hn as [Hn1 Hn2].
    rewrite filter_app, IH0 by done. rewrite (Hf k0) by done.
    case_decide; [congruence|done]. }
  apply elem_of_cons in Hin as [[= -> ->]|Hin].
  - rewrite (Hf k') by done. rewrite decide_True by done.
    rewrite Hnone by done. apply app_nil_r.
  - rewrite (Hf k') by done. rewrite decide_False.
    + csimpl. by apply IH.
    + intros ->. apply Hk'. apply list_elem_of_fmap. by exists (k, g).
Qed.

(** On a list sorted by key, each run is all the elements of its key, in
    the order of the list. *)
Lemma groupby_sorted_filter (l : list A) (k : string) (g : list A) :
  StronglySorted key_le l ->
  (k, g) ∈ py.groupby key l ->
  g = filter (fun x => key x = k) l /\ g <> [].
Proof.
  intros Hs Hin. split.
  - symmetry. rewrite <- (groupby_mjoin l) at 1.
    apply groupby_distinct_filter; [|..|done].
    + apply strict_sorted_NoDup, groupby_keys_ascend, Hs.
    + eapply Forall_impl; [apply groupby_runs|]. by intros ? [_ ?].
  - pose proof (groupby_runs l) as Hr. rewrite Forall_forall in Hr.
    by destruct (Hr _ Hin).
Qed.

End by_key_facts.

Lemma groupby_fmap {A B : Type} (key : B -> string) (f : A -> B) (l : list A) :
  py.groupby key (f <$> l)
  = (fun kg : string * list A => (kg.1, f <$> kg.2)) <$> py.groupby (fun x => key (f x)) l.
Proof.
  induction l as [|x l IH]; [done|]. csimpl. rewrite IH.
  destruct (py.groupby (fun x => key (f x)) l) as [|[k g] gs]; csimpl; [done|].
  by case_decide.
Qed.

(** ** Dictionaries *)
Section dict_facts.
Context {V : Type}.
Implicit Types (d : py.dict V) (k : string) (v : V).

Lemma dict_get_set d k v k' :
  py.dict_get (py.dict_set d k v) k' = if decide (k = k') then Some v else py.dict_get d k'.
Proof.
  induction d as [|[k0 v0] d IH]; simpl.
  - done.
  - destruct (decide (k0 = k)) as [->|Hne]; simpl.
    + by repeat case_decide.
    + rewrite IH. repeat case_decide; congruence.
Qed.

Lemma dict_elem_get d k v : NoDup (py.keys d) -> (k, v) ∈ d -> py.dict_get d k = Some v.
Proof.
  unfold py.keys. induction d as [|[k0 v0] d IH]; csimpl; intros Hnd Hin.
  { by apply elem_of_nil in Hin. }
  apply NoDup_cons in Hnd as [Hk0 Hnd].
  apply elem_of_cons in Hin as [[= -> ->]|Hin].
  - by rewrite decide_True.
  - rewrite decide_False; [auto|]. intros ->. apply Hk0.
    apply list_elem_of_fmap. by exists (k, v).
Qed.

Lemma dict_set_fresh d k v : k ∉ py.keys d -> py.dict_set d k v = d ++ [(k, v)].
Proof.
  unfold py.keys. induction d as [|[k0 v0] d IH]; csimpl; [done|].
  intros [Hne Hn]%not_elem_of_cons. rewrite decide_False by done.
  by rewrite IH.
Qed.

Lemma dict_set_keys d k v :
  py.keys (py.dict_set d k v) = if decide (k ∈ py.keys d) then py.keys d else py.keys d ++ [k].
Proof.
  unfold py.keys. induction d as [|[k0 v0] d IH]; csimpl.
  - done.
  - destruct (decide (k0 = k)) as [->|Hne]; csimpl.
    + rewrite decide_True; [done|left].
    + rewrite IH. destruct (decide (k ∈ d.*1)) as [Hk|Hk].
      * rewrite decide_True by (by right). done.
      * rewrite decide_False; [done|]. rewrite not_elem_of_cons. split; [congruence|done].
Qed.

Lemma dict_set_NoDup d k v : NoDup (py.keys d) -> NoDup (py.keys (py.dict_set d k v)).
Proof.
  intros Hnd. rewrite dict_set_keys. case_decide; [done|].
  apply NoDup_app. split_and!; [done| |apply NoDup_singleton].
  intros x Hx ->%list_elem_of_singleton. done.
Qed.

Lemma dict_of_app_NoDup d (items : list (string * V)) :
  NoDup (d ++ items).*1 ->
  foldl (fun d kv => py.dict_set d kv.1 kv.2) d items = d ++ items.
Proof.
  revert d. induction items as [|[k v] items IH]; intros d Hnd; simpl.
  { by rewrite app_nil_r. }
  rewrite dict_set_fresh.
  - rewrite IH; rewrite <- app_assoc; done.
  - rewrite fmap_app in Hnd. apply NoDup_app in Hnd as (_ & Hd & _).
    intros Hk. apply (Hd k Hk). csimpl. left.
Qed.

Lemma dict_of_NoDup (items : list (string * V)) :
  NoDup items.*1 -> py.dict_of items = items.
Proof. intros. by apply (dict_of_app_NoDup []). Qed.

Lemma dict_of_keys_NoDup (items : list (string * V)) : NoDup (py.keys (py.dict_of items)).
Proof.
  unfold py.dict_of. generalize (NoDup_nil_2 (A:=string)).
  change (@nil string) with (py.keys (@nil (string * V))).
  generalize (@nil (string * V)). induction items as [|[k v] items IH]; intros d Hd; simpl.
  - done.
  - apply IH. by apply dict_set_NoDup.
Qed.

End dict_facts.

Lemma elem_of_dict_set {V : Type} (dv : py.dict V) (k : string) (v : V) (kv : string * V) :
  kv ∈ py.dict_set dv k v -> kv = (k, v) \/ kv ∈ dv.
Proof.
  induction dv as [|[k0 v0] dv IH]; simpl.
  - intros ->%list_elem_of_singleton. by left.
  - case_decide; subst; rewrite !elem_of_cons; [tauto|].
    intros [->|Hin]; [tauto|]. destruct (IH Hin); tauto.
Qed.

Lemma elem_of_dict_of {V : Type} (items : list (string * V)) (kv : string * V) :
  kv ∈ py.dict_of items -> kv ∈ items.
Proof.
  unfold py.dict_of.
  assert (forall dv : py.dict V,
            kv ∈ foldl (fun dv kv => py.dict_set dv kv.1 kv.2) dv items ->
            kv ∈ dv \/ kv ∈ items) as H.
  { induction items as [|[k v] items IH]; intros dv; simpl; [tauto|].
    intros [[->|?]%elem_of_dict_set|?]%IH; rewrite elem_of_cons; tauto. }
  intros [Hin|?]%H; [|done]. by apply elem_of_nil in Hin.
Qed.

(** ** The duplicate queries of the index *)
Section duplicates.
Import index.

Implicit Types (tbl : list sqlite3.Row) (h : string).

Lemma elem_of_having_count_gt_1 tbl h :
  h ∈ Index.having_count_gt_1 tbl
  <-> (1 < length (filter (fun r => sqlite3.md5hash r = h) tbl))%nat.
Proof.
  unfold Index.having_count_gt_1.
  rewrite list_elem_of_filter, elem_of_remove_dups, list_elem_of_fmap.
  split; [tauto|]. intros Hc. split; [done|].
  destruct (filter (fun r => sqlite3.md5hash r = h) tbl) as [|r rs] eqn:Hf.
  { simpl in Hc. lia. }
  assert (r ∈ filter (fun r => sqlite3.md5hash r = h) tbl) as Hr
    by (rewrite Hf; left).
  apply list_elem_of_filter in Hr as [Hh Hr]. eauto.
Qed.

Lemma select_duplicates_sorted tbl :
  StronglySorted (fun x y => String.le (sqlite3.md5hash x) (sqlite3.md5hash y))
    (Index.select_duplicates tbl).
Proof. apply sorted_StronglySorted. Qed.

Lemma elem_of_select_duplicates tbl (r : sqlite3.Row) :
  r ∈ Index.select_duplicates tbl
  <-> sqlite3.md5hash r ∈ Index.having_count_gt_1 tbl /\ r ∈ tbl.
Proof.
  unfold Index.select_duplicates. by rewrite elem_of_sorted, list_elem_of_filter.
Qed.

Lemma select_duplicates_filter tbl h :
  h ∈ Index.having_count_gt_1 tbl ->
  filter (fun r => sqlite3.md5hash r = h) (Index.select_duplicates tbl)
  = filter (fun r => sqlite3.md5hash r = h) tbl.
Proof.
  intros Hh. unfold Index.select_duplicates. rewrite sorted_stable.
  apply list_filter_filter_l. by intros r ->.
Qed.

Lemma duplicates_unfold (idx : Index.t) :
  Index.duplicates idx
  = (fun kg : string * list sqlite3.Row => (kg.1, sqlite3.filepath <$> kg.2))
    <$> py.groupby sqlite3.md5hash (Index.select_duplicates (Index.table idx)).
Proof.
  unfold Index.duplicates.
  rewrite (groupby_fmap (fun item : string * string => item.1)). simpl.
  rewrite <- list_fmap_compose.
  set (gs := py.groupby _ _).
  rewrite dict_of_NoDup.
  - apply list_fmap_ext. intros _ [k g] _. simpl. f_equal.
    rewrite <- list_fmap_compose. done.
  - rewrite <- list_fmap_compose.
    apply strict_sorted_NoDup.
    eapply (eq_rect _ (StronglySorted (strict String.le))).
    + apply (groupby_keys_ascend sqlite3.md5hash), select_duplicates_sorted.
    + apply list_fmap_ext. by intros _ [k g] _.
Qed.

Lemma duplicates_keys (idx : Index.t) :
  py.keys (Index.duplicates idx)
  = (py.groupby sqlite3.md5hash (Index.select_duplicates (Index.table idx))).*1.
Proof.
  rewrite duplicates_unfold. unfold py.keys. rewrite <- list_fmap_compose.
  apply list_fmap_ext. by intros _ [k g] _.
Qed.

(** C5.  [duplicates] lists the hashes in strictly ascending order; each
    group it returns is the file paths of all the rows with that hash, in
    storage order, and there are at least two of them; and every hash
    that at least two rows bear is a key of the result. *)
Theorem duplicates_groups (idx : Index.t) :
  let r := Index.duplicates idx in
  StronglySorted (strict String.le) (py.keys r)
  /\ (forall h ps, (h, ps) ∈ r ->
        (2 <= length ps)%nat /\ ps = Index.find_filepaths_for_hash idx h)
  /\ (forall h,
        (2 <= length (filter (fun row => sqlite3.md5hash row = h) (Index.table idx)))%nat ->
        exists ps, py.dict_get r h = Some ps /\ (h, ps) ∈ r).
Proof.
  intros r. subst r.
  pose proof (select_duplicates_sorted (Index.table idx)) as Hs.
  assert (StronglySorted (strict String.le) (py.keys (Index.duplicates idx))) as Hk.
  { rewrite duplicates_keys. by apply groupby_keys_ascend. }
  split; [done|]. split.
  - intros h ps. rewrite duplicates_unfold.
    intros ([k g] & [= -> ->] & Hin)%list_elem_of_fmap. simpl.
    destruct (groupby_sorted_filter _ _ _ _ Hs Hin) as [Hg Hne].
    assert (k ∈ Index.having_count_gt_1 (Index.table idx)) as Hdup.
    { destruct g as [|x g]; [done|].
      assert (x ∈ filter (fun r => sqlite3.md5hash r = k)
                     (Index.select_duplicates (Index.table idx))) as Hx
        by (rewrite <- Hg; left).
      apply list_elem_of_filter in Hx as [<- Hx].
      by apply elem_of_select_duplicates in Hx as [? _]. }
    rewrite select_duplicates_filter in Hg by done. subst g.
    apply elem_of_having_count_gt_1 in Hdup.
    unfold Index.find_filepaths_for_hash. rewrite length_fmap. split; [lia|done].
  - intros h Hc.
    assert (h ∈ Index.having_count_gt_1 (Index.table idx)) as Hdup
      by (apply elem_of_having_count_gt_1; lia).
    assert (h ∈ (py.groupby sqlite3.md5hash
                   (Index.select_duplicates (Index.table idx))).*1) as Hin.
    { apply groupby_keys_elem.
      destruct (filter (fun row => sqlite3.md5hash row = h) (Index.table idx))
        as [|x xs] eqn:Hf; [simpl in Hc; lia|].
      assert (x ∈ filter (fun row => sqlite3.md5hash row = h) (Index.table idx)) as Hx
        by (rewrite Hf; left).
      apply list_elem_of_filter in Hx as [Hxh Hx].
      exists x. split; [|done]. apply elem_of_select_duplicates. by rewrite Hxh. }
    apply list_elem_of_fmap in Hin as ([k g] & -> & Hin). simpl.
    exists (sqlite3.filepath <$> g).
    assert ((k, sqlite3.filepath <$> g) ∈ Index.duplicates idx) as Hr.
    { rewrite duplicates_unfold. apply list_elem_of_fmap. by exists (k, g). }
    split; [|done]. apply dict_elem_get; [|done].
    by apply strict_sorted_NoDup.
Qed.

End duplicates.

(** C1.  On an index with two files of equal content, [duplicates] has
    the one key of their hash, while [duplicate_entries] has one key per
    file path, each with a single entry: its [groupby] key is column 0 of
    rows whose column 0 is [filepath]. *)
Theorem duplicate_entries_keyed_by_path :
  let idx := index.Index.from_rows
               [("a/x.txt", 5%Z, "5d41"); ("b/x.txt", 5%Z, "5d41")] "root" in
  index.Index.duplicates idx = [("5d41", ["a/x.txt"; "b/x.txt"])]
  /\ index.Index.duplicate_entries idx
     = [("a/x.txt", [index.Build_Entry "a/x.txt" 5 "5d41"]);
        ("b/x.txt", [index.Build_Entry "b/x.txt" 5 "5d41"])].
Proof. split; reflexivity. Qed.

(** ** The store: adding and enumerating *)
Section store.
Import index main.

Lemma Entry_of_row_tuple_getter (e : Entry) : Entry_of_row (tuple_getter e) = e.
Proof. by destruct e. Qed.

Lemma fmap_Entry_of_row (es : list Entry) : Entry_of_row <$> (tuple_getter <$> es) = es.
Proof.
  rewrite <- list_fmap_compose.
  etrans; [apply (list_fmap_ext _ id)|apply list_fmap_id].
  intros _ e _. apply Entry_of_row_tuple_getter.
Qed.

(** What can be bound *)
Lemma bind_parameters_None (e : Entry) :
  sqlite3.bind_parameters (tuple_getter e) = None <-> storable e.
Proof.
  unfold sqlite3.bind_parameters, storable, sqlite3.filepath, sqlite3.filesize,
    sqlite3.md5hash, tuple_getter. simpl.
  destruct (py.encodable (filePath e)); simpl; [|split; [done|by intros [? _]]].
  destruct (Z.leb_spec (- 2 ^ 63) (fileSize e)); simpl;
    [|split; [done|intros (_ & ? & _); lia]].
  destruct (Z.ltb_spec (fileSize e) (2 ^ 63)); simpl;
    [|split; [done|intros (_ & ? & _); lia]].
  destruct (py.encodable (md5Hash e)); simpl; [done|]. split; [done|by intros (_ & _ & ?)].
Qed.

Lemma add_storable (idx : Index.t) (e : Entry) :
  storable e ->
  Index.add idx e
  = ({| Index.conn := sqlite3.insert (Index.conn idx) (tuple_getter e);
        Index.root := Index.root idx |}, None).
Proof.
  intros Hs%bind_parameters_None. unfold Index.add, sqlite3.execute_insert. by rewrite Hs.
Qed.

Lemma add_not_storable (idx : Index.t) (e : Entry) :
  ~ storable e ->
  exists exc,
    Index.add idx e
    = ({| Index.conn := {| sqlite3.committed := sqlite3.committed (Index.conn idx);
                           sqlite3.pending := Some (Index.table idx) |};
          Index.root := Index.root idx |}, Some exc).
Proof.
  intros Hs. unfold Index.add, sqlite3.execute_insert.
  destruct (sqlite3.bind_parameters (tuple_getter e)) as [exc|] eqn:Hb.
  - by exists exc.
  - by apply bind_parameters_None in Hb.
Qed.

Lemma storable_dec (e : Entry) : storable e \/ ~ storable e.
Proof.
  destruct (sqlite3.bind_parameters (tuple_getter e)) eqn:Hb.
  - right. rewrite <- bind_parameters_None. congruence.
  - left. by apply bind_parameters_None.
Qed.

Lemma add_None (idx : Index.t) (e : Entry) : (Index.add idx e).2 = None <-> storable e.
Proof.
  destruct (storable_dec e) as [Hs|Hs].
  - by rewrite add_storable.
  - destruct (add_not_storable idx e Hs) as [exc ->]. simpl. split; [done|tauto].
Qed.

Lemma table_add (idx : Index.t) (e : Entry) :
  storable e -> Index.table (Index.add idx e).1 = Index.table idx ++ [tuple_getter e].
Proof. intros Hs. by rewrite add_storable. Qed.

Lemma table_add_raises (idx : Index.t) (e : Entry) :
  ~ storable e -> Index.table (Index.add idx e).1 = Index.table idx.
Proof. intros Hs. by destruct (add_not_storable idx e Hs) as [exc ->]. Qed.

Lemma committed_add (idx : Index.t) (e : Entry) :
  sqlite3.committed (Index.conn (Index.add idx e).1) = sqlite3.committed (Index.conn idx)
  /\ Index.root (Index.add idx e).1 = Index.root idx.
Proof.
  destruct (storable_dec e) as [Hs|Hs].
  - by rewrite add_storable.
  - by destruct (add_not_storable idx e Hs) as [exc ->].
Qed.

(** A run of calls of [add], which ends at the first one that raises:
    the rows of the entries before it are appended, and nothing is
    committed. *)
Lemma for_each_add (es : list Entry) :
  forall idx,
    let adds := for_each (fun e idx => Index.add idx e) es idx in
    sqlite3.committed (Index.conn adds.1) = sqlite3.committed (Index.conn idx)
    /\ Index.root adds.1 = Index.root idx
    /\ (adds.2 = None <-> Forall storable es)
    /\ exists stored rest,
         es = stored ++ rest
         /\ Forall storable stored
         /\ Index.table adds.1 = Index.table idx ++ (tuple_getter <$> stored)
         /\ (adds.2 = None -> rest = []).
Proof.
  induction es as [|e es IH]; intros idx; simpl.
  { split_and!; [done|done|by split|]. exists [], [].
    split_and!; [done|constructor| |done]. simpl. by rewrite app_nil_r. }
  destruct (storable_dec e) as [Hs|Hs].
  - rewrite add_storable by done.
    specialize (IH {| Index.conn := sqlite3.insert (Index.conn idx) (tuple_getter e);
                      Index.root := Index.root idx |}).
    simpl in IH. destruct IH as (Hc & Hr & Hnone & stored & rest & -> & Hst & Ht & Hrest).
    split_and!; [done|done| |].
    + rewrite Hnone, Forall_cons. tauto.
    + exists (e :: stored), rest. split_and!; [done|by constructor| |done].
      rewrite Ht. change (Index.table {| Index.conn := sqlite3.insert ?c ?r; Index.root := _ |})
        with (sqlite3.rows c ++ [r]).
      by rewrite <- app_assoc.
  - destruct (add_not_storable idx e Hs) as [exc ->]. simpl.
    split_and!; [done|done| |].
    + split; [done|]. by intros [? _]%Forall_cons.
    + exists [], (e :: es). split_and!; [done|done| |done].
      by rewrite app_nil_r.
Qed.

Lemma table_commit (idx : Index.t) :
  Index.table (Index.exit_ idx false) = Index.table idx.
Proof. done. Qed.

(** C8.  Entries are added to a freshly created store one after the
    other.  Every call of [add] returns exactly when every entry can be
    bound, that is, its texts can be encoded and its size fits 64 bits.
    The entries added are then enumerated as they were added, field by
    field and in the order of insertion, both inside the session and
    after it is committed. *)
Theorem entries_after_add (root : string) (es : list Entry) :
  let adds := for_each (fun e idx => Index.add idx e) es (Index.new root) in
  (adds.2 = None <-> Forall storable es)
  /\ (adds.2 = None ->
      Index.entries adds.1 = es /\ Index.entries (Index.exit_ adds.1 false) = es).
Proof.
  intros adds.
  destruct (for_each_add es (Index.new root))
    as (_ & _ & Hnone & stored & rest & Hes & _ & Ht & Hrest).
  fold adds in Hnone, Ht, Hrest. split; [done|]. intros Hret.
  unfold Index.entries. rewrite table_commit, Ht. simpl.
  rewrite fmap_Entry_of_row, Hes, (Hrest Hret), app_nil_r. done.
Qed.

End store.

Lemma entries_after_add_witness :
  index.Index.entries
    (main.for_each (fun e idx => index.Index.add idx e)
       [index.Build_Entry "a/x.txt" 5 "5d41"; index.Build_Entry "b/x.txt" 5 "5d41"]
       (index.Index.new "root")).1
  = [index.Build_Entry "a/x.txt" 5 "5d41"; index.Build_Entry "b/x.txt" 5 "5d41"].
Proof.
  apply (proj2 (entries_after_add "root"
                  [index.Build_Entry "a/x.txt" 5 "5d41"; index.Build_Entry "b/x.txt" 5 "5d41"])).
  reflexivity.
Defined.

(** An entry whose path is not UTF-8, as a file name can be, and one
    whose size does not fit 64 bits are refused, and the store stays
    empty. *)
Example add_refused :
  index.Index.add (index.Index.new "root") (index.Build_Entry (String "255" "a") 1 "h")
  = ({| index.Index.conn := {| sqlite3.committed := []; sqlite3.pending := Some [] |};
        index.Index.root := "root" |}, Some py.UnicodeEncodeError)
  /\ index.Index.add (index.Index.new "root") (index.Build_Entry "a" (2 ^ 63) "h")
     = ({| index.Index.conn := {| sqlite3.committed := []; sqlite3.pending := Some [] |};
           index.Index.root := "root" |}, Some py.OverflowError).
Proof. split; reflexivity. Qed.

(** ** The filter predicate *)
Section filter_test.
Import index.

Lemma re_match_compile (pats : list string) (path : string) :
  fnmatch.re_match (fnmatch.compile pats) path = true
  <-> exists pat, pat ∈ pats /\ fnmatch.fnmatchcase path pat = true.
Proof.
  unfold fnmatch.re_match, fnmatch.compile. rewrite existsb_exists. split.
  - intros (ps & Hin & Hm). apply list_elem_of_In, list_elem_of_fmap in Hin as (pat & -> & Hin).
    eauto.
  - intros (pat & Hin & Hm). exists (fnmatch.translate pat). split; [|done].
    apply list_elem_of_In, list_elem_of_fmap. eauto.
Qed.

Lemma Filter_test_unfold (includes excludes : list string) (path : string) :
  Filter.test (Filter.init includes excludes) path
  = negb (fnmatch.re_match (fnmatch.compile excludes) path)
    && (bool_decide (includes = []) || fnmatch.re_match (fnmatch.compile includes) path).
Proof.
  unfold Filter.test, Filter.init.
  destruct includes as [|i0 is0], excludes as [|e0 es0]; simpl; try done.
  - by destruct (_ || _).
  - by destruct (_ || _).
Qed.

(** C4.  A path that matches an exclude pattern is rejected, whatever
    the include patterns; a path that matches no exclude pattern is
    accepted exactly when there is no include pattern or it matches one. *)
Theorem Filter_test_spec (includes excludes : list string) (path : string) :
  let excluded := exists pat, pat ∈ excludes /\ fnmatch.fnmatchcase path pat = true in
  let included := exists pat, pat ∈ includes /\ fnmatch.fnmatchcase path pat = true in
  (excluded -> Filter.test (Filter.init includes excludes) path = false)
  /\ (~ excluded ->
      (Filter.test (Filter.init includes excludes) path = true
       <-> includes = [] \/ included)).
Proof.
  intros excluded included. rewrite Filter_test_unfold.
  pose proof (re_match_compile excludes path) as He.
  pose proof (re_match_compile includes path) as Hi.
  fold excluded in He. fold included in Hi. split.
  - intros Hx. apply He in Hx. by rewrite Hx.
  - intros Hx. destruct (fnmatch.re_match (fnmatch.compile excludes) path).
    { exfalso. apply Hx, He. done. }
    simpl. rewrite orb_true_iff, bool_decide_eq_true, Hi. done.
Qed.

End filter_test.

Lemma Filter_test_spec_witness :
  index.Filter.test (index.Filter.init ["*.txt"] ["a/*"]) "a/x.txt" = false
  /\ (index.Filter.test (index.Filter.init ["*.txt"] ["a/*"]) "b/x.txt" = true
      <-> ["*.txt"] = [] \/ exists pat, pat ∈ ["*.txt"] /\ fnmatch.fnmatchcase "b/x.txt" pat = true).
Proof.
  split.
  - apply (proj1 (Filter_test_spec ["*.txt"] ["a/*"] "a/x.txt")).
    exists "a/*". split; [left|reflexivity].
  - apply (proj2 (Filter_test_spec ["*.txt"] ["a/*"] "b/x.txt")).
    intros (pat & Hin & Hm). apply list_elem_of_singleton in Hin. subst pat.
    vm_compute in Hm. discriminate Hm.
Defined.

(** ** The differ *)
Section differ.
Import index main.

(** C3.  With more than 5000 hashes missing on the left, [eval_missing]
    raises its [RuntimeError] and returns no mapping; with at most 5000 it
    returns the mapping whose keys are the missing hashes, each with the
    paths that [right] holds for it. *)
Theorem eval_missing_threshold (left right : Index.t) (filter_ : Filter.t) :
  let missing := Index.unique_hashes right filter_ ∖ Index.unique_hashes left filter_ in
  ((5000 < Z.of_nat (size missing))%Z ->
     eval_missing left right filter_ = inl (py.RuntimeError "Abort: too many hashes"))
  /\ ((Z.of_nat (size missing) <= 5000)%Z ->
      exists m : gmap string (list string),
        eval_missing left right filter_ = inr m
        /\ dom m = missing
        /\ forall hash, hash ∈ missing ->
             m !! hash = Some (Index.find_filepaths_for_hash right hash)).
Proof.
  intros missing. unfold eval_missing. fold missing. split.
  - intros Hgt. rewrite (proj2 (Z.ltb_lt _ _)) by done. done.
  - intros Hle. rewrite (proj2 (Z.ltb_ge _ _)) by done.
    eexists. split; [done|].
    assert (forall hash paths,
              set_to_map (M:=gmap string (list string))
                (fun hash => (hash, Index.find_filepaths_for_hash right hash)) missing
                !! hash = Some paths
              <-> hash ∈ missing /\ paths = Index.find_filepaths_for_hash right hash) as Hl.
    { intros hash paths. rewrite lookup_set_to_map by (by intros ???? [= ->]).
      split; [intros (y & Hy & [= -> ->])|intros [Hy ->]]; eauto. }
    split.
    + apply set_eq. intros hash. rewrite elem_of_dom. split.
      * intros [paths Hp]. by apply Hl in Hp as [? _].
      * intros Hm. eexists. by apply Hl.
    + intros hash Hm. by apply Hl.
Qed.

Lemma unique_hashes_no_filter (tbl : list sqlite3.Row) (root : string) :
  Index.unique_hashes (Index.from_rows tbl root) (Filter.init [] [])
  = list_to_set (sqlite3.md5hash <$> tbl).
Proof.
  unfold Index.unique_hashes. simpl. f_equal. f_equal.
  change (Index.table (Index.from_rows tbl root)) with tbl.
  induction tbl as [|r tbl IH]; [done|].
  rewrite filter_cons_True by done. by f_equal.
Qed.

Lemma many_rows_missing (n : nat) :
  size (Index.unique_hashes (Index.from_rows (scenarios.many_rows n) "right") (Filter.init [] [])
        ∖ Index.unique_hashes (Index.from_rows [] "left") (Filter.init [] []))
  = n.
Proof.
  rewrite !unique_hashes_no_filter. simpl. rewrite difference_empty_L.
  unfold scenarios.many_rows. rewrite <- list_fmap_compose.
  rewrite size_list_to_set.
  - by rewrite length_fmap, length_seq.
  - apply (NoDup_fmap_2 (fun i : nat => pretty i)), NoDup_seq.
Qed.

Lemma eval_missing_threshold_witness :
  eval_missing (Index.from_rows [] "left")
    (Index.from_rows (scenarios.many_rows 5001) "right") (Filter.init [] [])
  = inl (py.RuntimeError "Abort: too many hashes")
  /\ exists m : gmap string (list string),
       eval_missing (Index.from_rows [("x", 1%Z, "02129b")] "left")
         (Index.from_rows [("x", 1%Z, "02129b"); ("y", 1%Z, "57cec4")] "right")
         (Filter.init [] [])
       = inr m
       /\ m !! "57cec4" = Some ["y"].
Proof.
  split.
  - apply (proj1 (eval_missing_threshold _ _ _)).
    rewrite many_rows_missing. vm_compute. reflexivity.
  - destruct (proj2 (eval_missing_threshold
                       (Index.from_rows [("x", 1%Z, "02129b")] "left")
                       (Index.from_rows [("x", 1%Z, "02129b"); ("y", 1%Z, "57cec4")] "right")
                       (Filter.init [] []))) as (m & Hm & Hdom & Hget).
    + vm_compute. discriminate.
    + exists m. split; [exact Hm|].
      apply Hget. apply (bool_decide_unpack _). vm_compute. exact I.
Defined.

End differ.

(** ** The scanner and the build session *)
Section scanner.
Import index main.

Variable md5_hexdigest : string -> string.
Variable relpath : string -> string -> string.

Local Abbreviation index_entry := (main.index_entry md5_hexdigest relpath).
Local Abbreviation index_dir := (main.index_dir md5_hexdigest relpath).

Lemma DirEntry_nested_ind (P : DirEntry -> Prop) :
  (forall n data, P (File n data)) ->
  (forall n, P (Dir n None)) ->
  (forall n listing, Forall P listing -> P (Dir n (Some listing))) ->
  (forall n, P (Other n)) ->
  forall entry, P entry.
Proof.
  intros HF HD0 HD HO. fix IH 1. intros [n data|n [listing|]|n].
  - apply HF.
  - apply HD. induction listing as [|e listing IHl]; constructor; [apply IH|apply IHl].
  - apply HD0.
  - apply HO.
Qed.

Lemma for_each_app {S A : Type} (body : A -> S -> S * option py.exception)
    (xs ys : list A) (s : S) :
  for_each body (xs ++ ys) s
  = match for_each body xs s with
    | (s', None) => for_each body ys s'
    | (s', Some e) => (s', Some e)
    end.
Proof.
  revert s. induction xs as [|x xs IH]; intros s; simpl; [done|].
  destruct (body x s) as [s' [e|]]; [done|]. apply IH.
Qed.

Lemma for_each_invariant {S A : Type} (body : A -> S -> S * option py.exception)
    (R : S -> S -> Prop) (xs : list A) :
  (forall s, R s s) ->
  (forall s1 s2 s3, R s1 s2 -> R s2 s3 -> R s1 s3) ->
  Forall (fun x => forall s, R s (body x s).1) xs ->
  forall s, R s (for_each body xs s).1.
Proof.
  intros Hrefl Htrans. induction 1 as [|x xs Hx _ IH]; intros s; simpl; [done|].
  specialize (Hx s). destruct (body x s) as [s' [e|]]; simpl in *; [done|].
  by eapply Htrans.
Qed.

Lemma extends_refl (idx : Index.t) : extends idx idx.
Proof. split_and!; [done..|]. exists []. by rewrite app_nil_r. Qed.

Lemma extends_trans (i1 i2 i3 : Index.t) : extends i1 i2 -> extends i2 i3 -> extends i1 i3.
Proof.
  intros (Hc1 & Hr1 & n1 & Ht1) (Hc2 & Hr2 & n2 & Ht2).
  split_and!; [congruence..|]. exists (n1 ++ n2). rewrite Ht2, Ht1. by rewrite app_assoc.
Qed.

Lemma add_extends (idx : Index.t) (e : Entry) : extends idx (Index.add idx e).1.
Proof.
  destruct (committed_add idx e) as [Hc Hr]. split_and!; [done..|].
  destruct (storable_dec e) as [Hs|Hs].
  - eexists. by apply table_add.
  - exists []. rewrite app_nil_r. by apply table_add_raises.
Qed.

(** While the walk runs, the rows already committed stay as they are. *)
Lemma index_entry_extends (filter_ : Filter.t) (entry : DirEntry) :
  forall dir idx, extends idx (index_entry filter_ dir entry idx).1.
Proof.
  induction entry as [n data|n|n listing IH|n] using DirEntry_nested_ind;
    intros dir idx; simpl;
    destruct (Filter.test filter_ _); simpl; try apply extends_refl.
  - destruct data as [bytes|]; simpl; [|apply extends_refl]. apply add_extends.
  - apply (for_each_invariant _ extends); [apply extends_refl|apply extends_trans|].
    eapply Forall_impl; [exact IH|]. intros e He s. apply He.
Qed.

Lemma index_dir_extends (filter_ : Filter.t) (dir : string)
    (listing : option (list DirEntry)) (idx : Index.t) :
  extends idx (index_dir filter_ dir listing idx).1.
Proof.
  destruct listing as [listing|]; simpl; [|apply extends_refl].
  apply (for_each_invariant _ extends); [apply extends_refl|apply extends_trans|].
  apply Forall_forall. intros e _ s. apply index_entry_extends.
Qed.

(** C7.  Nothing is committed while the walk of a build runs.  When the
    walk completes, every row it inserted is committed by the one commit
    at the end of the session; when it raises, the session is rolled
    back and the store keeps the rows it had before, namely none. *)
Theorem index_session_atomic (root : string) (listing : option (list DirEntry))
    (includes excludes : list string) :
  let walk := index_dir (Filter.init includes excludes) root listing (Index.new root) in
  sqlite3.committed (Index.conn walk.1) = []
  /\ main.index md5_hexdigest relpath root listing includes excludes
     = match walk.2 with
       | None =>
           ({| sqlite3.committed := Index.table walk.1; sqlite3.pending := None |},
            inr 0%Z)
       | Some e =>
           ({| sqlite3.committed := []; sqlite3.pending := None |}, inl e)
       end.
Proof.
  intros walk.
  destruct (index_dir_extends (Filter.init includes excludes) root listing (Index.new root))
    as (Hc & _ & _).
  fold walk in Hc. simpl in Hc. split; [done|].
  unfold main.index. fold walk. destruct walk as [idx [e|]]; simpl in *.
  - unfold sqlite3.rollback. by rewrite Hc.
  - done.
Qed.

(** C9.  An entry whose path the filter rejects leaves the index as it
    was and raises nothing, whether it is a file, a directory or neither,
    readable or not; so a listing is scanned as if the rejected entry,
    with all that lies beneath it, were not there. *)
Theorem rejected_entry_skipped (filter_ : Filter.t) (dir : string) (entry : DirEntry)
    (idx : Index.t) :
  Filter.test filter_ (posixpath.join dir (name entry)) = false ->
  index_entry filter_ dir entry idx = (idx, None)
  /\ forall before after : list DirEntry,
       index_dir filter_ dir (Some (before ++ entry :: after)) idx
       = index_dir filter_ dir (Some (before ++ after)) idx.
Proof.
  intros Hrej.
  assert (forall idx, index_entry filter_ dir entry idx = (idx, None)) as Hskip.
  { intros idx'. destruct entry; simpl in *; by rewrite Hrej. }
  split; [apply Hskip|]. intros before after. simpl.
  rewrite !for_each_app. destruct (for_each _ before idx) as [idx' [e|]]; [done|].
  simpl. by rewrite Hskip.
Qed.

End scanner.

Lemma rejected_entry_skipped_witness :
  main.index_entry (fun data => data) (fun path start => path)
    (index.Filter.init [] ["*/cache"]) "root"
    (main.Dir "cache" (Some [main.File "a.bin" (Some "abc"); main.Dir "locked" None]))
    (index.Index.new "root")
  = (index.Index.new "root", None).
Proof.
  apply (rejected_entry_skipped (fun data => data) (fun path start => path)).
  reflexivity.
Defined.

(** A walk that has inserted a row and then meets a file it cannot open
    leaves nothing in the store. *)
Example index_session_raises :
  main.index (fun data => data) (fun path start => path) "root"
    (Some [main.File "a" (Some "abc"); main.File "b" None]) [] []
  = ({| sqlite3.committed := []; sqlite3.pending := None |}, inl py.OSError)
  /\ index.Index.table
       (main.index_dir (fun data => data) (fun path start => path)
          (index.Filter.init [] []) "root"
          (Some [main.File "a" (Some "abc"); main.File "b" None])
          (index.Index.new "root")).1
     = [("root/a", 3%Z, "abc")].
Proof. split; reflexivity. Qed.

(** ** The filter as SQL *)
Section filter_sql.
Import index.









Lemma Filter_sql_unfold (includes excludes : list string) (r : sqlite3.Row) :
  sqlite3.eval (Filter.sql (Filter.init includes excludes)) r
  = (bool_decide (includes = [])
     || existsb (fun e => sqlite3.eval e r)
          ((fun include => sqlite3.LIKE (_whitecard_to_like include)) <$> includes))
    && forallb (fun e => sqlite3.eval e r)
         ((fun exclude => sqlite3.NOT_LIKE (_whitecard_to_like exclude)) <$> excludes).
Proof.
  destruct includes as [|i0 is0], excludes as [|e0 es0];
    cbn -[sqlite3.like _whitecard_to_like]; rewrite ?andb_true_r; done.
Qed.





End filter_sql.

(** ** Strings and [posixpath.split] *)
Section split_facts.

Implicit Types (c : ascii) (s a x p : string).

Local Abbreviation sep := posixpath.sep.
Local Arguments String.append !_ _ / : simpl nomatch.

Lemma append_assoc a s x : (a +:+ s) +:+ x = a +:+ (s +:+ x).
Proof. induction a; simpl; [done|]. by f_equal. Qed.

Lemma length_append a x : String.length (a +:+ x) = (String.length a + String.length x)%nat.
Proof. induction a; simpl; [done|]. by f_equal. Qed.

Lemma rfind_bounds c s : (-1 <= py.rfind c s < Z.of_nat (String.length s))%Z.
Proof.
  induction s as [|a s IH]; simpl; [lia|].
  destruct (0 <=? py.rfind c s)%Z eqn:Hk; [lia|].
  case_decide; lia.
Qed.

Lemma rfind_append_sep c a x :
  py.rfind c x = (-1)%Z -> py.rfind c (a +:+ String c x) = Z.of_nat (String.length a).
Proof.
  intros Hx. induction a as [|d a IH]; simpl.
  - rewrite Hx. simpl. by rewrite decide_True.
  - rewrite IH. rewrite (proj2 (Z.leb_le _ _)) by lia. lia.
Qed.

(** A string either has no [c], or splits at its last [c]. *)
Lemma rfind_decompose c s :
  py.rfind c s = (-1)%Z
  \/ exists a x, s = a +:+ String c x /\ py.rfind c x = (-1)%Z.
Proof.
  induction s as [|d s IH]; simpl; [by left|].
  destruct IH as [Hn|(a & x & -> & Hx)].
  - rewrite Hn. simpl. case_decide; subst; [|by left].
    right. by exists "", s.
  - right. by exists (String d a), x.
Qed.

Lemma slice_to_append a x : py.slice_to (Z.of_nat (String.length a)) (a +:+ x) = a.
Proof.
  unfold py.slice_to. rewrite Nat2Z.id.
  induction a as [|d a IH]; simpl; [by destruct x|]. by f_equal.
Qed.

Lemma substring_all s : substring 0 (String.length s) s = s.
Proof. induction s; simpl; [done|]. by f_equal. Qed.

Lemma slice_from_append a x : py.slice_from (Z.of_nat (String.length a)) (a +:+ x) = x.
Proof.
  unfold py.slice_from. rewrite Nat2Z.id, length_append.
  replace (String.length a + String.length x - String.length a)%nat
    with (String.length x) by lia.
  induction a as [|d a IH]; simpl; [|done].
  destruct x; simpl; [done|]. f_equal. apply substring_all.
Qed.

Lemma slice_to_0 s : py.slice_to 0 s = "".
Proof. by destruct s. Qed.

Lemma slice_from_0 s : py.slice_from 0 s = s.
Proof.
  unfold py.slice_from. simpl. rewrite Nat.sub_0_r. apply substring_all.
Qed.

(** [rstrip] *)
Lemma rstrip_append_sep c a : py.rstrip c (a +:+ String c "") = py.rstrip c a.
Proof.
  induction a as [|d a IH]; simpl.
  - by rewrite decide_True.
  - by rewrite IH.
Qed.

Lemma rstrip_empty_iff c s :
  py.rstrip c s = "" <-> s = py.repeat_char c (String.length s).
Proof.
  induction s as [|d s IH]; simpl; [done|].
  destruct (py.rstrip c s) eqn:Hr.
  - case_decide; subst.
    + split; [intros _|done]. f_equal. by apply IH.
    + split; [done|]. intros [= ? _]. done.
  - split; [done|]. intros [= _ Hs]. apply IH in Hs. done.
Qed.

Lemma rstrip_prefix c s : exists rest, s = py.rstrip c s +:+ rest.
Proof.
  induction s as [|d s [rest IH]]; simpl; [by exists ""|].
  destruct (py.rstrip c s) eqn:Hr.
  - case_decide; [by exists (String d s)|]. exists s. done.
  - exists rest. simpl in *. by f_equal.
Qed.



Lemma repeat_char_append_sep c a :
  a +:+ String c "" = py.repeat_char c (String.length (a +:+ String c ""))
  <-> a = py.repeat_char c (String.length a).
Proof.
  rewrite <- !rstrip_empty_iff. by rewrite rstrip_append_sep.
Qed.

(** [split] *)
Lemma split_no_sep p : py.rfind sep p = (-1)%Z -> posixpath.split p = ("", p).
Proof.
  intros Hp. unfold posixpath.split. rewrite Hp. simpl.
  by rewrite slice_to_0, slice_from_0.
Qed.

Lemma split_sep a x :
  py.rfind sep x = (-1)%Z ->
  posixpath.split (a +:+ String sep x)
  = (if decide (a = py.repeat_char sep (String.length a))
     then a +:+ String sep "" else py.rstrip sep a, x).
Proof.
  intros Hx. unfold posixpath.split. rewrite rfind_append_sep by done.
  replace (Z.of_nat (String.length a) + 1)%Z
    with (Z.of_nat (String.length (a +:+ String sep ""))) by (rewrite length_append; simpl; lia).
  replace (a +:+ String sep x) with ((a +:+ String sep "") +:+ x)
    by (by rewrite append_assoc).
  rewrite slice_to_append, slice_from_append.
  rewrite bool_decide_eq_true_2 by (by destruct a). simpl.
  case_decide as Ha.
  - rewrite bool_decide_eq_false_2; [done|]. intros Hn. apply Hn.
    by apply repeat_char_append_sep.
  - rewrite bool_decide_eq_true_2 by (by rewrite repeat_char_append_sep).
    simpl. by rewrite rstrip_append_sep.
Qed.

Lemma prefix_startswith c a rest :
  a <> "" -> py.startswith (a +:+ rest) c = py.startswith a c.
Proof. by destruct a. Qed.

Lemma split_head_relative p h t :
  relative p -> posixpath.split p = (h, t) -> h <> "" ->
  relative h /\ (String.length h < String.length p)%nat.
Proof.
  unfold relative. intros Hrel Hsplit Hh.
  destruct (rfind_decompose sep p) as [Hn|(a & x & -> & Hx)].
  { rewrite split_no_sep in Hsplit by done. by simplify_eq. }
  rewrite split_sep in Hsplit by done.
  destruct a as [|d a]; [done|]. simpl in Hrel.
  apply bool_decide_eq_false in Hrel.
  rewrite decide_False in Hsplit by (simpl; congruence).
  simplify_eq. destruct (rstrip_prefix sep (String d a)) as [rest Hrest].
  rewrite Hrest at 2. rewrite <- (prefix_startswith _ _ rest), <- Hrest by done.
  split; [by apply bool_decide_eq_false|].
  apply (f_equal String.length) in Hrest. rewrite length_append in Hrest.
  rewrite length_append. simpl in *. lia.
Qed.

Lemma split_head_absolute p :
  absolute p -> (posixpath.split p).1 <> "" /\ absolute (posixpath.split p).1.
Proof.
  unfold absolute. intros Habs.
  destruct (rfind_decompose sep p) as [Hn|(a & x & -> & Hx)].
  { destruct p as [|d p]; [done|]. simpl in *. apply bool_decide_eq_true in Habs.
    subst d. pose proof (rfind_bounds sep p).
    destruct (0 <=? py.rfind sep p)%Z eqn:Hk; [lia|]. by rewrite decide_True in Hn. }
  rewrite split_sep by done. simpl. case_decide as Ha.
  - split; [by destruct a|]. destruct a; [done|]. done.
  - assert (py.rstrip sep a <> "") as Hr by (by rewrite rstrip_empty_iff).
    split; [done|]. destruct (rstrip_prefix sep a) as [rest Hrest].
    rewrite <- (prefix_startswith _ _ rest), <- Hrest by done.
    rewrite <- Habs. symmetry. apply prefix_startswith. by intros ->.
Qed.

End split_facts.

(** ** The ancestor walk *)
Section path_split_all_facts.
Import main.

Implicit Types (p h : string) (l parts : list string).

Local Arguments String.append !_ _ / : simpl nomatch.

Lemma relative_or_absolute p : relative p \/ absolute p.
Proof. unfold relative, absolute. destruct (py.startswith p posixpath.sep); auto. Qed.

Lemma path_split_all_loop_mono fuel p l r :
  path_split_all_loop fuel p l = Some r ->
  forall fuel', (fuel <= fuel')%nat -> path_split_all_loop fuel' p l = Some r.
Proof.
  revert p l. induction fuel as [|fuel IH]; intros p l Hr fuel' Hle; [done|].
  destruct fuel' as [|fuel']; [lia|]. simpl in *.
  destruct (posixpath.split p) as [h t]. case_decide; [done|].
  apply IH; [done|lia].
Qed.

Lemma path_split_all_loop_relative fuel p l :
  relative p -> (String.length p < fuel)%nat ->
  exists parts,
    path_split_all_loop fuel p l = Some (l ++ parts)
    /\ Forall (fun q => (String.length q < String.length p)%nat) parts
    /\ NoDup parts.
Proof.
  revert p l. induction fuel as [|fuel IH]; intros p l Hrel Hlen; [lia|].
  simpl. destruct (posixpath.split p) as [h t] eqn:Hsplit.
  case_decide as Hh.
  { exists []. rewrite app_nil_r. split_and!; [done|constructor|constructor]. }
  destruct (split_head_relative p h t Hrel Hsplit Hh) as [Hrelh Hlenh].
  destruct (IH h (l ++ [h]) Hrelh) as (parts & Hloop & Hall & Hnd); [lia|].
  exists (h :: parts). rewrite Hloop, <- app_assoc. split_and!; [done|..].
  - constructor; [done|]. eapply Forall_impl; [exact Hall|]. simpl. lia.
  - constructor; [|done]. intros Hin. rewrite Forall_forall in Hall.
    specialize (Hall _ Hin). lia.
Qed.

Lemma path_split_all_loop_absolute fuel p l :
  absolute p -> path_split_all_loop fuel p l = None.
Proof.
  revert p l. induction fuel as [|fuel IH]; intros p l Habs; [done|].
  simpl. destruct (split_head_absolute p Habs) as [Hne Hh].
  destruct (posixpath.split p) as [h t]. simpl in *.
  rewrite decide_False by done. by apply IH.
Qed.

Lemma path_split_all_relative fuel p :
  relative p -> (String.length p < fuel)%nat ->
  exists parts, path_split_all fuel p = Some parts /\ NoDup parts.
Proof.
  intros Hrel Hlen.
  destruct (path_split_all_loop_relative fuel p [] Hrel Hlen) as (parts & Hp & _ & Hnd).
  eauto.
Qed.

Lemma path_split_all_Some_relative fuel p parts :
  path_split_all fuel p = Some parts -> relative p.
Proof.
  intros Hp. destruct (relative_or_absolute p) as [|Habs]; [done|].
  unfold path_split_all in Hp. by rewrite path_split_all_loop_absolute in Hp.
Qed.

Lemma path_split_all_NoDup fuel p parts :
  path_split_all fuel p = Some parts -> NoDup parts.
Proof.
  intros Hp. pose proof (path_split_all_Some_relative _ _ _ Hp) as Hrel.
  destruct (path_split_all_relative (S (fuel + String.length p)) p Hrel)
    as (parts' & Hp' & Hnd); [lia|].
  unfold path_split_all in *.
  rewrite (path_split_all_loop_mono _ _ _ _ Hp (S (fuel + String.length p))) in Hp' by lia.
  by simplify_eq.
Qed.








End path_split_all_facts.

(** ** The directory aggregator *)
Section aggregator.
Import index main.

Variable md5_hexdigest : string -> string.

Implicit Types (d : py.dict string) (e : Entry) (es : list Entry).

Local Abbreviation feed_step fuel :=
  (fun (acc : option (py.dict string)) (entry : Entry) => d ← acc; feed_entry fuel d entry).

Lemma feed_entry_noise fuel d e : noise e -> feed_entry fuel d e = Some d.
Proof. intros Hn. unfold feed_entry. by rewrite decide_False by (by intros []). Qed.

Lemma feed_entry_parts fuel d e :
  ~ noise e ->
  feed_entry fuel d e
  = parts ← path_split_all fuel (filePath e);
    Some (foldl (fun d pathPart => update d pathPart (md5Hash e)) d parts).
Proof. intros Hn. unfold feed_entry. by rewrite decide_True. Qed.

Lemma feed_None fuel es : foldl (feed_step fuel) None es = None.
Proof. by induction es. Qed.



(** What the hashers were fed *)
Lemma dict_get_update d (k k' data : string) :
  py.dict_get (update d k data) k'
  = if decide (k = k') then Some (default "" (py.dict_get d k) +:+ data)
    else py.dict_get d k'.
Proof. unfold update. apply dict_get_set. Qed.

Lemma dict_get_update_all (parts : list string) (data : string) :
  NoDup parts ->
  forall d k,
    py.dict_get (foldl (fun d pathPart => update d pathPart data) d parts) k
    = if decide (k ∈ parts) then Some (default "" (py.dict_get d k) +:+ data)
      else py.dict_get d k.
Proof.
  induction 1 as [|q parts Hq _ IH]; intros d k; simpl; [done|].
  rewrite IH. destruct (decide (q = k)) as [->|Hqk].
  - rewrite decide_False by done. rewrite decide_True by left.
    rewrite dict_get_update. by rewrite decide_True.
  - rewrite dict_get_update, (decide_False (P:=q = k)) by done.
    destruct (decide (k ∈ parts)) as [Hk|Hk].
    + rewrite decide_True by (by right). done.
    + rewrite decide_False; [done|]. rewrite not_elem_of_cons. split; [congruence|done].
Qed.

Lemma update_all_keys_NoDup (parts : list string) (data : string) d :
  NoDup (py.keys d) ->
  NoDup (py.keys (foldl (fun d pathPart => update d pathPart data) d parts)).
Proof.
  revert d. induction parts as [|q parts IH]; intros d Hd; simpl; [done|].
  apply IH. by apply dict_set_NoDup.
Qed.

Lemma feed_all_keys_NoDup fuel es d d' :
  NoDup (py.keys d) -> foldl (feed_step fuel) (Some d) es = Some d' -> NoDup (py.keys d').
Proof.
  revert d. induction es as [|e es IH]; intros d Hd; simpl; [congruence|].
  destruct (feed_entry fuel d e) as [d1|] eqn:Hf; [|by rewrite feed_None].
  apply IH. destruct (decide (noise e)) as [Hn|Hn].
  - rewrite feed_entry_noise in Hf by done. by simplify_eq.
  - rewrite feed_entry_parts in Hf by done.
    destruct (path_split_all fuel (filePath e)) as [parts|]; simplify_eq/=.
    by apply update_all_keys_NoDup.
Qed.


Lemma dict_get_fmap_values (f : string -> string) d (k : string) :
  py.dict_get ((fun item : string * string => (item.1, f item.2)) <$> d) k
  = f <$> py.dict_get d k.
Proof.
  induction d as [|[k0 v0] d IH]; csimpl; [done|]. by case_decide.
Qed.

Lemma eval_hashes_unfold d :
  NoDup (py.keys d) ->
  eval_hashes md5_hexdigest d
  = (fun item : string * string => (item.1, md5_hexdigest item.2)) <$> d.
Proof.
  intros Hd. unfold eval_hashes. apply dict_of_NoDup.
  rewrite <- list_fmap_compose. done.
Qed.

Lemma dict_get_elem {V : Type} (dv : py.dict V) (k : string) (v : V) :
  py.dict_get dv k = Some v -> (k, v) ∈ dv.
Proof.
  induction dv as [|[k0 v0] dv IH]; simpl; [done|].
  case_decide; subst.
  - intros [= ->]. left.
  - intros. right. auto.
Qed.

Lemma sublist_StronglySorted {A : Type} (R : relation A) (l1 l2 : list A) :
  l1 `sublist_of` l2 -> StronglySorted R l2 -> StronglySorted R l1.
Proof.
  induction 1 as [|x l1 l2 Hsub IH|x l1 l2 Hsub IH]; intros Hs; [done|..].
  - inversion_clear Hs as [|?? Hl2 Hx]. constructor; [auto|].
    rewrite Forall_forall in *. intros y Hy. apply Hx. by eapply elem_of_sublist.
  - inversion_clear Hs. auto.
Qed.

Lemma filter_keys_NoDup {V : Type} (P : string * V -> Prop) `{!forall x, Decision (P x)}
    (dv : py.dict V) :
  NoDup (py.keys dv) -> NoDup (py.keys (filter P dv)).
Proof.
  unfold py.keys. intros Hnd. eapply sublist_NoDup; [exact Hnd|].
  apply fmap_sublist, sublist_filter.
Qed.

Lemma filter_single_sub_folders_unfold d :
  NoDup (py.keys d) ->
  filter_single_sub_folders d
  = filter (fun item => has_parent_with_same_hash item.1 item.2 d = false) d.
Proof. intros Hd. apply dict_of_NoDup. by apply filter_keys_NoDup. Qed.

Lemma find_duplicates_unfold d :
  find_duplicates d
  = filter (fun k_paths : string * list string => (1 < length k_paths.2)%nat)
      ((fun hash_paths : string * list (string * string) =>
          (hash_paths.1, (fun path => path.1) <$> hash_paths.2))
       <$> py.groupby (fun item : string * string => item.2)
             (py.sorted (fun item : string * string => item.2) d))
    /\ StronglySorted (strict String.le) (py.keys (find_duplicates d)).
Proof.
  assert (StronglySorted (strict String.le)
            (py.keys
               (filter (fun k_paths : string * list string => (1 < length k_paths.2)%nat)
                  ((fun hash_paths : string * list (string * string) =>
                      (hash_paths.1, (fun path => path.1) <$> hash_paths.2))
                   <$> py.groupby (fun item : string * string => item.2)
                         (py.sorted (fun item : string * string => item.2) d))))) as Hs.
  { unfold py.keys. eapply sublist_StronglySorted.
    - apply fmap_sublist, sublist_filter.
    - rewrite <- list_fmap_compose.
      eapply (eq_rect _ (StronglySorted (strict String.le))).
      + apply (groupby_keys_ascend (fun item : string * string => item.2)),
          sorted_StronglySorted.
      + apply list_fmap_ext. by intros _ [k g] _. }
  assert (find_duplicates d = filter (fun k_paths : string * list string =>
                                        (1 < length k_paths.2)%nat)
            ((fun hash_paths : string * list (string * string) =>
                (hash_paths.1, (fun path => path.1) <$> hash_paths.2))
             <$> py.groupby (fun item : string * string => item.2)
                   (py.sorted (fun item : string * string => item.2) d))) as Heq.
  { apply dict_of_NoDup. by apply strict_sorted_NoDup. }
  split; [done|]. by rewrite Heq.
Qed.

(** The groups of [find_duplicates]: for each hash, the paths that bear
    it, in the order of the dictionary. *)
Lemma find_duplicates_elem d (h : string) (paths : list string) :
  (h, paths) ∈ find_duplicates d
  <-> paths = (filter (fun item : string * string => item.2 = h) d).*1
      /\ (2 <= length paths)%nat.
Proof.
  rewrite (proj1 (find_duplicates_unfold d)), list_elem_of_filter, list_elem_of_fmap.
  simpl. split.
  - intros [Hlen ([h' g] & [= -> ->] & Hg)].
    destruct (groupby_sorted_filter (fun item : string * string => item.2) _ _ _
                (sorted_StronglySorted _ d) Hg) as [-> _].
    simpl in *. rewrite sorted_stable. rewrite sorted_stable in Hlen. split; [done|lia].
  - intros [-> Hlen]. split; [lia|].
    destruct (filter (fun item : string * string => item.2 = h) d) as [|x xs] eqn:Hf.
    { simpl in Hlen. lia. }
    assert (x ∈ filter (fun item : string * string => item.2 = h) d) as Hx
      by (rewrite Hf; left).
    apply list_elem_of_filter in Hx as [Hxh Hx].
    assert (h ∈ (py.groupby (fun item : string * string => item.2)
                   (py.sorted (fun item : string * string => item.2) d)).*1) as Hk.
    { apply groupby_keys_elem. exists x. by rewrite elem_of_sorted. }
    apply list_elem_of_fmap in Hk as ([h' g] & Hh & Hg). simpl in Hh. subst h'.
    exists (h, g). split; [|done]. simpl.
    destruct (groupby_sorted_filter (fun item : string * string => item.2) _ _ _
                (sorted_StronglySorted _ d) Hg) as [-> _].
    rewrite sorted_stable.
    etrans; [|eapply (f_equal (fun l => (h, (fun path : string * string => path.1) <$> l)));
              symmetry; exact Hf].
    done.
Qed.

Lemma eval_dir_dups_Some fuel (idx : Index.t) report :
  eval_dir_dups md5_hexdigest fuel idx = Some report ->
  exists d,
    feed_all fuel (Index.entries idx) = Some d
    /\ NoDup (py.keys d)
    /\ report = find_duplicates (filter_single_sub_folders (eval_hashes md5_hexdigest d))
    /\ forall dir, dir_hash md5_hexdigest fuel idx dir
                   = py.dict_get (eval_hashes md5_hexdigest d) dir.
Proof.
  unfold eval_dir_dups, dir_hash.
  destruct (feed_all fuel (Index.entries idx)) as [d|] eqn:Hd; [|done].
  simpl. intros [= <-]. exists d. split_and!; [done| |done..].
  by apply (feed_all_keys_NoDup fuel (Index.entries idx) [] d (NoDup_nil_2)).
Qed.

(** The groups of the report: the directories kept with a composite
    hash, when there are two of them at least. *)
Lemma eval_dir_dups_kept fuel (idx : Index.t) report :
  eval_dir_dups md5_hexdigest fuel idx = Some report ->
  (forall h paths, (h, paths) ∈ report ->
     (2 <= length paths)%nat /\ NoDup paths
     /\ forall p, p ∈ paths <-> kept md5_hexdigest fuel idx p h)
  /\ (forall h p q, p <> q ->
        kept md5_hexdigest fuel idx p h -> kept md5_hexdigest fuel idx q h ->
        exists paths, (h, paths) ∈ report).
Proof.
  intros (d & Hd & Hnd & -> & Hhash)%eval_dir_dups_Some.
  set (d1 := eval_hashes md5_hexdigest d) in *.
  assert (NoDup (py.keys d1)) as Hnd1 by apply dict_of_keys_NoDup.
  assert (forall p h,
            (p, h) ∈ filter_single_sub_folders d1 <-> kept md5_hexdigest fuel idx p h) as Hun.
  { intros p h. rewrite filter_single_sub_folders_unfold, list_elem_of_filter by done.
    unfold kept. rewrite !Hhash. simpl. unfold has_parent_with_same_hash.
    split.
    - intros [Hpar Hin]. split; [by apply dict_elem_get|].
      case_decide as Hdir; [|left; by destruct (decide (posixpath.dirname p = ""))].
      right. by apply bool_decide_eq_false in Hpar.
    - intros [Hget Hpar]. split; [|by apply dict_get_elem].
      case_decide as Hdir; [|done]. apply bool_decide_eq_false. by destruct Hpar. }
  assert (NoDup (py.keys (filter_single_sub_folders d1))) as Hnd2
    by apply dict_of_keys_NoDup.
  assert (forall h p,
            p ∈ (filter (fun item : string * string => item.2 = h)
                   (filter_single_sub_folders d1)).*1
            <-> kept md5_hexdigest fuel idx p h) as Hmem.
  { intros h p. rewrite <- Hun, list_elem_of_fmap. split.
    - intros ([p' h'] & -> & [Hh Hin]%list_elem_of_filter). simpl in *. by subst.
    - intros Hin. exists (p, h). split; [done|]. by apply list_elem_of_filter. }
  split.
  - intros h paths [-> Hlen]%find_duplicates_elem. split_and!; [done| |apply Hmem].
    by apply (filter_keys_NoDup (V:=string)).
  - intros h p q Hpq Hp%Hmem Hq%Hmem. eexists. apply find_duplicates_elem.
    split; [done|].
    assert (NoDup (filter (fun item : string * string => item.2 = h)
                     (filter_single_sub_folders d1)).*1) as Hndf
      by (by apply (filter_keys_NoDup (V:=string))).
    destruct ((filter (fun item : string * string => item.2 = h)
                 (filter_single_sub_folders d1)).*1) as [|x [|y l]]; simpl.
    + by apply elem_of_nil in Hp.
    + apply list_elem_of_singleton in Hp, Hq. congruence.
    + lia.
Qed.



End aggregator.

(** ** The theorems at work on small indexes *)

Lemma duplicates_groups_witness :
  (forall ps,
     ("5d41", ps) ∈ index.Index.duplicates
                      (index.Index.from_rows
                         [("a/x.txt", 5%Z, "5d41"); ("c.txt", 7%Z, "9a0b");
                          ("b/x.txt", 5%Z, "5d41")] "root") ->
     ps = ["a/x.txt"; "b/x.txt"])
  /\ exists ps,
       py.dict_get (index.Index.duplicates
                      (index.Index.from_rows
                         [("a/x.txt", 5%Z, "5d41"); ("c.txt", 7%Z, "9a0b");
                          ("b/x.txt", 5%Z, "5d41")] "root")) "5d41" = Some ps.
Proof.
  destruct (duplicates_groups
              (index.Index.from_rows
                 [("a/x.txt", 5%Z, "5d41"); ("c.txt", 7%Z, "9a0b");
                  ("b/x.txt", 5%Z, "5d41")] "root")) as (_ & Hg & Hk).
  split.
  - intros ps Hin. destruct (Hg _ _ Hin) as [_ ->]. reflexivity.
  - destruct (Hk "5d41") as (ps & Hps & _).
    + vm_compute. apply le_n.
    + exists ps. exact Hps.
Defined.




(** Scenario A of the spec, the report on two directories with the same
    file, and the report when one of them is nested one level deeper. *)
Example eval_dir_dups_flat :
  main.eval_dir_dups (fun data => data) 20
    (index.Index.from_rows [("a/x.txt", 5%Z, "5d41"); ("b/x.txt", 5%Z, "5d41")] "root")
  = Some [("5d41", ["a"; "b"])].
Proof. reflexivity. Qed.

Example eval_dir_dups_nested :
  main.eval_dir_dups (fun data => data) 20
    (index.Index.from_rows [("a/b/c/x.txt", 5%Z, "5d41"); ("d/x.txt", 5%Z, "5d41");
                            ("a/b/c/Thumbs.db", 9%Z, "77aa")] "root")
  = Some [("5d41", ["a"; "d"])].
Proof. reflexivity. Qed.

(** * Further properties of the code *)

(** ** Lookups in the store *)
Section store_lookups.
Import index main.

(** X1.  An entry that can be bound is added: [add] returns, and the
    paths found for a hash are then the paths found before, followed by
    the path of the new entry when it bears that hash.  For an entry
    that cannot be bound [add] raises, and the paths found are those
    found before. *)
Theorem find_filepaths_for_hash_add (idx : Index.t) (e : Entry) (hash : string) :
  (storable e ->
   (Index.add idx e).2 = None
   /\ Index.find_filepaths_for_hash (Index.add idx e).1 hash
      = Index.find_filepaths_for_hash idx hash
        ++ (if decide (md5Hash e = hash) then [filePath e] else []))
  /\ (~ storable e ->
      (Index.add idx e).2 <> None
      /\ Index.find_filepaths_for_hash (Index.add idx e).1 hash
         = Index.find_filepaths_for_hash idx hash).
Proof.
  split; intros Hs.
  - split; [by apply add_None|].
    unfold Index.find_filepaths_for_hash. rewrite table_add, filter_app, fmap_app by done.
    f_equal. rewrite filter_cons, filter_nil. unfold sqlite3.md5hash, tuple_getter. simpl.
    by case_decide.
  - split; [by rewrite add_None|].
    unfold Index.find_filepaths_for_hash. by rewrite table_add_raises.
Qed.

Lemma find_filepaths_for_hash_add_witness :
  Index.find_filepaths_for_hash
    (Index.add (Index.from_rows [("a", 1%Z, "h1")] "root") (Build_Entry "b" 2 "h1")).1 "h1"
  = ["a"; "b"]
  /\ Index.find_filepaths_for_hash
       (Index.add (Index.from_rows [("a", 1%Z, "h1")] "root")
          (Build_Entry (String "255" "b") 2 "h1")).1 "h1"
     = ["a"].
Proof.
  split.
  - apply (proj1 (find_filepaths_for_hash_add (Index.from_rows [("a", 1%Z, "h1")] "root")
                    (Build_Entry "b" 2 "h1") "h1")).
    unfold storable. simpl. split_and!; [reflexivity|lia|lia|reflexivity].
  - apply (proj2 (find_filepaths_for_hash_add (Index.from_rows [("a", 1%Z, "h1")] "root")
                    (Build_Entry (String "255" "b") 2 "h1") "h1")).
    intros [Hpath _]. discriminate Hpath.
Defined.

(** X2.  On a store without open transaction, a session that adds
    entries and ends with an exception leaves the entries as they were;
    one that ends without exception has added them for good: a later
    session that fails does not take them away. *)
Theorem add_then_exit (idx : Index.t) (es later : list Entry) :
  sqlite3.pending (Index.conn idx) = None ->
  let adds := for_each (fun e idx => Index.add idx e) es idx in
  let again := for_each (fun e idx => Index.add idx e) later (Index.exit_ adds.1 false) in
  Index.entries (Index.exit_ adds.1 true) = Index.entries idx
  /\ Index.entries (Index.exit_ again.1 true) = Index.entries adds.1
  /\ (adds.2 = None -> Index.entries adds.1 = Index.entries idx ++ es).
Proof.
  intros Hp adds again.
  destruct (for_each_add es idx) as (Hc & _ & _ & stored & rest & Hes & _ & Ht & Hrest).
  destruct (for_each_add later (Index.exit_ adds.1 false)) as (Hc' & _).
  fold adds in Hc, Ht, Hrest. fold again in Hc'. split_and!.
  - unfold Index.entries, Index.table, sqlite3.rows. simpl. by rewrite Hc, Hp.
  - unfold Index.entries at 1. unfold Index.table at 1. unfold sqlite3.rows. simpl.
    by rewrite Hc'.
  - intros Hret. unfold Index.entries. rewrite Ht, fmap_app, fmap_Entry_of_row.
    by rewrite Hes, (Hrest Hret), app_nil_r.
Qed.

Lemma add_then_exit_witness :
  Index.entries
    (Index.exit_
       (for_each (fun e idx => Index.add idx e) [Build_Entry "b" 2 "h2"]
          (Index.from_rows [("a", 1%Z, "h1")] "root")).1 true)
  = [Build_Entry "a" 1 "h1"].
Proof.
  apply (proj1 (add_then_exit (Index.from_rows [("a", 1%Z, "h1")] "root")
                  [Build_Entry "b" 2 "h2"] [] eq_refl)).
Defined.

Lemma unique_hashes_elem (idx : Index.t) (filter_ : Filter.t) (hash : string) :
  hash ∈ Index.unique_hashes idx filter_
  <-> exists r, r ∈ Index.table idx /\ sqlite3.md5hash r = hash
                /\ sqlite3.eval (Filter.sql filter_) r = true.
Proof.
  unfold Index.unique_hashes. rewrite elem_of_list_to_set, list_elem_of_fmap.
  setoid_rewrite list_elem_of_filter. split.
  - intros (r & -> & Ht & Hr). by exists r.
  - intros (r & Hr & <- & Ht). by exists r.
Qed.

Lemma find_filepaths_for_hash_nil (idx : Index.t) (hash : string) :
  Index.find_filepaths_for_hash idx hash = []
  <-> forall r, r ∈ Index.table idx -> sqlite3.md5hash r <> hash.
Proof.
  unfold Index.find_filepaths_for_hash. split.
  - intros Hf%fmap_nil_inv r Hr Hh.
    assert (r ∈ filter (fun r => sqlite3.md5hash r = hash) (Index.table idx)) as Hin
      by (by apply list_elem_of_filter).
    rewrite Hf in Hin. by apply elem_of_nil in Hin.
  - intros Hn. destruct (filter _ (Index.table idx)) as [|r rs] eqn:Hf; [done|].
    assert (r ∈ filter (fun r => sqlite3.md5hash r = hash) (Index.table idx)) as Hin
      by (rewrite Hf; left).
    apply list_elem_of_filter in Hin as [Hh Hr]. by destruct (Hn r Hr).
Qed.

Lemma unique_hashes_find_filepaths (idx : Index.t) (filter_ : Filter.t) (hash : string) :
  hash ∈ Index.unique_hashes idx filter_ -> Index.find_filepaths_for_hash idx hash <> [].
Proof.
  rewrite unique_hashes_elem, find_filepaths_for_hash_nil.
  intros (r & Hr & Hh & _) Hn. by apply (Hn r).
Qed.

(** X3.  A filter whose patterns can be spliced into the statement
    only narrows: the hashes it yields are among those of the filter
    without patterns, and these are the hashes for which
    [find_filepaths_for_hash] finds a path. *)
Theorem unique_hashes_narrows (idx : Index.t) (includes excludes : list string) :
  Forall (fun pat => quotable pat = true) includes ->
  Forall (fun pat => quotable pat = true) excludes ->
  Index.unique_hashes idx (Filter.init includes excludes)
    ⊆ Index.unique_hashes idx (Filter.init [] [])
  /\ forall hash,
       hash ∈ Index.unique_hashes idx (Filter.init [] [])
       <-> Index.find_filepaths_for_hash idx hash <> [].
Proof.
  intros _ _. split.
  - apply elem_of_subseteq. intros hash.
    rewrite !unique_hashes_elem. intros (r & Hr & Hh & _). by exists r.
  - intros hash. split; [apply unique_hashes_find_filepaths|].
    rewrite unique_hashes_elem, find_filepaths_for_hash_nil. intros Hn.
    destruct (decide (Exists (fun r => sqlite3.md5hash r = hash) (Index.table idx)))
      as [Hex|Hex].
    + apply Exists_exists in Hex as (r & Hr & Hh). by exists r.
    + exfalso. apply Hn. intros r Hr Hh. apply Hex, Exists_exists. eauto.
Qed.

Lemma unique_hashes_narrows_witness :
  Index.unique_hashes scenarios.right_index (Filter.init ["*.txt"] ["tmp/*"])
    ⊆ Index.unique_hashes scenarios.right_index (Filter.init [] []).
Proof.
  apply (unique_hashes_narrows scenarios.right_index ["*.txt"] ["tmp/*"]).
  - repeat constructor.
  - repeat constructor.
Defined.

Lemma eval_missing_inr (left right : Index.t) (filter_ : Filter.t)
    (m : gmap string (list string)) :
  eval_missing left right filter_ = inr m ->
  let missing := Index.unique_hashes right filter_ ∖ Index.unique_hashes left filter_ in
  (size missing <= 5000)%nat
  /\ m = set_to_map (fun hash => (hash, Index.find_filepaths_for_hash right hash)) missing.
Proof.
  intros Hm missing. unfold eval_missing in Hm. fold missing in Hm.
  destruct (Z.ltb_spec 5000 (Z.of_nat (size missing))) as [Hlt|Hge]; [done|].
  split; [lia|]. by simplify_eq.
Qed.

Lemma lookup_missing (right : Index.t) (missing : gset string) (hash : string)
    (paths : list string) :
  set_to_map (M:=gmap string (list string))
    (fun hash => (hash, Index.find_filepaths_for_hash right hash)) missing !! hash
  = Some paths
  <-> hash ∈ missing /\ paths = Index.find_filepaths_for_hash right hash.
Proof.
  rewrite lookup_set_to_map by (by intros ???? [= ->]).
  split; [intros (y & Hy & [= -> ->])|intros [Hy ->]]; eauto.
Qed.

(** X4.  For a filter whose patterns can be spliced into the statement,
    the mapping that [eval_missing] returns has at most 5000 keys; each
    key is a hash that the filter yields on the right and not on the
    left, and its value is the list of all paths that the right index
    holds for the hash, accepted by the filter or not, which is never
    empty. *)
Theorem eval_missing_sound (left right : Index.t) (includes excludes : list string)
    (m : gmap string (list string)) :
  Forall (fun pat => quotable pat = true) includes ->
  Forall (fun pat => quotable pat = true) excludes ->
  let filter_ := Filter.init includes excludes in
  eval_missing left right filter_ = inr m ->
  (size m <= 5000)%nat
  /\ forall hash paths,
       m !! hash = Some paths ->
       hash ∈ Index.unique_hashes right filter_
       /\ (hash ∉ Index.unique_hashes left filter_)
       /\ paths = Index.find_filepaths_for_hash right hash
       /\ paths <> [].
Proof.
  intros _ _ filter_ [Hsize ->]%eval_missing_inr. split.
  - rewrite <- size_dom.
    assert (dom (set_to_map (M:=gmap string (list string))
                   (fun hash => (hash, Index.find_filepaths_for_hash right hash))
                   (Index.unique_hashes right filter_ ∖ Index.unique_hashes left filter_))
            = (Index.unique_hashes right filter_ ∖ Index.unique_hashes left filter_)) as ->;
      [|done].
    apply set_eq. intros hash. rewrite elem_of_dom. split.
    + intros [paths Hp]. by apply lookup_missing in Hp as [? _].
    + intros Hin. eexists. by apply lookup_missing.
  - intros hash paths [Hin ->]%lookup_missing.
    apply elem_of_difference in Hin as [Hr Hl]. split_and!; [done..|].
    by eapply unique_hashes_find_filepaths.
Qed.

Lemma eval_missing_sound_witness :
  (size scenarios.missing_on_left <= 5000)%nat
  /\ ("57cec4" ∉ Index.unique_hashes scenarios.left_index (Filter.init ["*.txt"] []))
  /\ ["y.txt"; "z.bin"] = Index.find_filepaths_for_hash scenarios.right_index "57cec4".
Proof.
  assert (eval_missing scenarios.left_index scenarios.right_index (Filter.init ["*.txt"] [])
          = inr scenarios.missing_on_left) as Heval.
  { vm_compute. reflexivity. }
  assert (scenarios.missing_on_left !! "57cec4" = Some ["y.txt"; "z.bin"]) as Hp.
  { vm_compute. reflexivity. }
  destruct (eval_missing_sound scenarios.left_index scenarios.right_index ["*.txt"] []
              scenarios.missing_on_left) as [Hsize Hs];
    [repeat constructor|constructor|exact Heval|].
  destruct (Hs _ _ Hp) as (_ & Hl & Hpaths & _). by split_and!.
Defined.

(** X5.  When every row of the right index is a row of the left one,
    nothing is missing: for a filter whose patterns can be spliced into
    the statement, [eval_missing] returns the empty mapping and does not
    raise, however many hashes there are. *)
Theorem eval_missing_covered (left right : Index.t) (includes excludes : list string) :
  Forall (fun pat => quotable pat = true) includes ->
  Forall (fun pat => quotable pat = true) excludes ->
  (forall r, r ∈ Index.table right -> r ∈ Index.table left) ->
  eval_missing left right (Filter.init includes excludes) = inr ∅.
Proof.
  intros _ _ Hsub. generalize (Filter.init includes excludes). intros filter_.
  unfold eval_missing.
  assert ((Index.unique_hashes right filter_ ∖ Index.unique_hashes left filter_) = ∅) as ->.
  { apply set_eq. intros hash. rewrite elem_of_difference, !unique_hashes_elem.
    split; [|by intros ?%not_elem_of_empty].
    intros [(r & Hr & Hh & Ht) Hn]. destruct Hn. exists r. auto. }
  rewrite size_empty. reflexivity.
Qed.

Lemma eval_missing_covered_witness :
  eval_missing (Index.from_rows [("x", 1%Z, "02129b"); ("y", 1%Z, "57cec4")] "left")
    (Index.from_rows [("y", 1%Z, "57cec4")] "right") (Filter.init ["*.txt"; "y"] [])
  = inr ∅.
Proof.
  apply eval_missing_covered.
  - repeat constructor.
  - constructor.
  - intros r Hr. apply list_elem_of_singleton in Hr as ->. right. left.
Defined.

End store_lookups.

(** ** More on the duplicate queries *)
Section more_duplicates.
Import index main.

Implicit Types (tbl : list sqlite3.Row) (idx : Index.t).

Lemma groupby_nil_iff {A : Type} (key : A -> string) (l : list A) :
  py.groupby key l = [] <-> l = [].
Proof.
  split; [|by intros ->]. destruct l as [|x l]; [done|]. simpl.
  destruct (py.groupby key l) as [|[k g] gs]; [done|]. by case_decide.
Qed.

Lemma dict_of_foldl_not_nil {V : Type} (items : list (string * V)) (d : py.dict V) :
  d <> [] -> foldl (fun d kv => py.dict_set d kv.1 kv.2) d items <> [].
Proof.
  revert d. induction items as [|[k v] items IH]; intros d Hd; simpl; [done|].
  apply IH. destruct d as [|[k0 v0] d]; [done|]. simpl. by case_decide.
Qed.

Lemma dict_of_nil_iff {V : Type} (items : list (string * V)) :
  py.dict_of items = [] <-> items = [].
Proof.
  split; [|by intros ->]. destruct items as [|[k v] items]; [done|].
  unfold py.dict_of. simpl. intros H. by apply dict_of_foldl_not_nil in H.
Qed.

Lemma dict_of_keys_elem {V : Type} (items : list (string * V)) (k : string) :
  k ∈ py.keys (py.dict_of items) <-> k ∈ items.*1.
Proof.
  unfold py.dict_of.
  assert (forall d : py.dict V,
            k ∈ py.keys (foldl (fun d kv => py.dict_set d kv.1 kv.2) d items)
            <-> k ∈ py.keys d \/ k ∈ items.*1) as H.
  { induction items as [|[k0 v0] items IH]; intros d; csimpl.
    - rewrite elem_of_nil. tauto.
    - rewrite IH, dict_set_keys, elem_of_cons. case_decide as Hk.
      + split; [tauto|]. intros [?|[->|?]]; tauto.
      + rewrite elem_of_app, list_elem_of_singleton. tauto. }
  rewrite H. unfold py.keys. csimpl. rewrite elem_of_nil. tauto.
Qed.

Lemma count_shared_hash tbl (h : string) :
  (2 <= length (sqlite3.filepath <$> filter (fun r => sqlite3.md5hash r = h) tbl))%nat
  <-> h ∈ Index.having_count_gt_1 tbl.
Proof. rewrite length_fmap, elem_of_having_count_gt_1. lia. Qed.

Lemma select_duplicates_nil_iff idx :
  Index.select_duplicates (Index.table idx) = []
  <-> forall hash, (length (Index.find_filepaths_for_hash idx hash) <= 1)%nat.
Proof.
  unfold Index.find_filepaths_for_hash. split.
  - intros Hnil hash.
    destruct (decide (hash ∈ Index.having_count_gt_1 (Index.table idx))) as [Hin|Hn].
    + rewrite <- select_duplicates_filter, Hnil by done. simpl. lia.
    + rewrite <- count_shared_hash in Hn. lia.
  - intros Hc. destruct (Index.select_duplicates (Index.table idx)) as [|r rs] eqn:Hs; [done|].
    assert (r ∈ Index.select_duplicates (Index.table idx)) as Hr by (rewrite Hs; left).
    apply elem_of_select_duplicates in Hr as [Hr _].
    apply count_shared_hash in Hr. specialize (Hc (sqlite3.md5hash r)). lia.
Qed.

(** X6.  [duplicates] and [duplicate_entries] return the empty
    dictionary exactly when no hash is borne by two rows. *)
Theorem duplicates_empty_iff idx :
  (Index.duplicates idx = []
   <-> forall hash, (length (Index.find_filepaths_for_hash idx hash) <= 1)%nat)
  /\ (Index.duplicate_entries idx = []
      <-> forall hash, (length (Index.find_filepaths_for_hash idx hash) <= 1)%nat).
Proof.
  rewrite <- select_duplicates_nil_iff. split.
  - rewrite duplicates_unfold. rewrite <- (groupby_nil_iff sqlite3.md5hash).
    split; [apply fmap_nil_inv|by intros ->].
  - unfold Index.duplicate_entries. rewrite dict_of_nil_iff. split.
    + intros H%fmap_nil_inv. by apply groupby_nil_iff in H.
    + by intros ->.
Qed.

Lemma tuple_getter_Entry_of_row (r : sqlite3.Row) : tuple_getter (Entry_of_row r) = r.
Proof. by destruct r as [[??]?]. Qed.

Lemma duplicate_entries_elem idx (k : string) (es : list Entry) :
  (k, es) ∈ Index.duplicate_entries idx ->
  exists g, es = Entry_of_row <$> g /\ g <> []
            /\ Forall (fun r => sqlite3.filepath r = k
                                /\ r ∈ Index.select_duplicates (Index.table idx)) g.
Proof.
  unfold Index.duplicate_entries. intros Hin. apply elem_of_dict_of in Hin.
  apply list_elem_of_fmap in Hin as ([k' g] & [= -> ->] & Hg). simpl.
  exists g. split; [done|].
  pose proof (groupby_runs (fun item : sqlite3.Row => item.1.1)
                (Index.select_duplicates (Index.table idx))) as Hr.
  rewrite Forall_forall in Hr. destruct (Hr _ Hg) as [Hne Hall]. simpl in *.
  split; [done|]. rewrite Forall_forall in Hall. apply Forall_forall. intros r Hin.
  split; [by apply Hall|].
  rewrite <- (groupby_mjoin (fun item : sqlite3.Row => item.1.1)
                (Index.select_duplicates (Index.table idx))).
  apply list_elem_of_join. exists g. split; [done|].
  apply list_elem_of_fmap. by exists (k', g).
Qed.

(** X7.  Every group that [duplicate_entries] returns is not empty, and
    each of its entries is a stored row whose path is the key of the
    group and whose hash at least two rows bear; the path of every such
    row is a key of the result. *)
Theorem duplicate_entries_groups idx :
  (forall k es, (k, es) ∈ Index.duplicate_entries idx ->
     es <> []
     /\ forall e, e ∈ es ->
          filePath e = k /\ tuple_getter e ∈ Index.table idx
          /\ (2 <= length (Index.find_filepaths_for_hash idx (md5Hash e)))%nat)
  /\ (forall r, r ∈ Index.table idx ->
        (2 <= length (Index.find_filepaths_for_hash idx (sqlite3.md5hash r)))%nat ->
        sqlite3.filepath r ∈ py.keys (Index.duplicate_entries idx)).
Proof.
  split.
  - intros k es (g & -> & Hne & Hall)%duplicate_entries_elem. split.
    { by destruct g. }
    intros e (r & -> & Hr)%list_elem_of_fmap. rewrite Forall_forall in Hall.
    destruct (Hall r Hr) as [Hk [Hdup Htbl]%elem_of_select_duplicates].
    rewrite tuple_getter_Entry_of_row. split_and!; [done..|].
    by apply count_shared_hash.
  - intros r Hr Hc. unfold Index.duplicate_entries. rewrite dict_of_keys_elem.
    rewrite <- list_fmap_compose.
    assert (sqlite3.filepath r
            ∈ (py.groupby (fun item : sqlite3.Row => item.1.1)
                 (Index.select_duplicates (Index.table idx))).*1) as Hin.
    { apply groupby_keys_elem. exists r. split; [|done].
      apply elem_of_select_duplicates. split; [|done]. by apply count_shared_hash. }
    apply list_elem_of_fmap in Hin as ([k g] & -> & Hin).
    apply list_elem_of_fmap. by exists (k, g).
Qed.

Lemma duplicate_entries_groups_witness :
  [Build_Entry "b/x.txt" 5 "5d41"] <> []
  /\ "a/x.txt" ∈ py.keys (Index.duplicate_entries
                            (Index.from_rows
                               [("a/x.txt", 5%Z, "5d41"); ("b/x.txt", 5%Z, "5d41")] "root")).
Proof.
  destruct (duplicate_entries_groups
              (Index.from_rows [("a/x.txt", 5%Z, "5d41"); ("b/x.txt", 5%Z, "5d41")] "root"))
    as [Hg Hk].
  split.
  - apply (Hg "b/x.txt" [Build_Entry "b/x.txt" 5 "5d41"]). right. left.
  - apply (Hk ("a/x.txt", 5%Z, "5d41")); [left|]. vm_compute. apply le_n.
Defined.

End more_duplicates.

(** ** The sum of [dedupsize] *)
Section dedupsize_facts.
Import index main.

Local Abbreviation size_step :=
  (fun (size : option Z) (item : string * list Entry) =>
     size ← size; first ← head item.2; Some (size + fileSize first)%Z).

Lemma groupby_distinct_keys {A : Type} (key : A -> string) (l : list A) :
  NoDup (key <$> l) -> py.groupby key l = (fun x => (key x, [x])) <$> l.
Proof.
  induction l as [|x l IH]; [done|]. csimpl. intros [Hx Hl]%NoDup_cons.
  rewrite IH by done. destruct l as [|y l]; csimpl; [done|].
  rewrite decide_False; [done|]. intros Heq. apply Hx. rewrite Heq. left.
Qed.

Lemma foldr_add_Permutation (l1 l2 : list Z) :
  l1 ≡ₚ l2 -> foldr Z.add 0%Z l1 = foldr Z.add 0%Z l2.
Proof. induction 1; simpl; lia. Qed.

Lemma size_step_nonempty (d : py.dict (list Entry)) (a : Z) :
  Forall (fun item => item.2 <> []) d -> is_Some (foldl size_step (Some a) d).
Proof.
  intros Hd. revert a. induction Hd as [|[k es] d Hes _ IH]; intros a; simpl; [by eexists|].
  destruct es as [|e es]; [done|]. simpl. apply IH.
Qed.

Lemma size_step_singletons (rows : list sqlite3.Row) (a : Z) :
  foldl size_step (Some a)
    ((fun r => (sqlite3.filepath r, [Entry_of_row r])) <$> rows)
  = Some (a + foldr Z.add 0%Z (sqlite3.filesize <$> rows))%Z.
Proof.
  revert a. induction rows as [|r rows IH]; intros a; csimpl.
  - f_equal. lia.
  - rewrite IH. f_equal. unfold sqlite3.filesize. simpl. lia.
Qed.

(** X8.  [dedupsize] never fails on an empty group.  When the rows whose
    hash is shared have pairwise different paths, the sum it prints is
    the total size of all those rows, every copy counted. *)
Theorem dedupsize_total (idx : Index.t) :
  is_Some (dedupsize idx)
  /\ (NoDup (sqlite3.filepath
               <$> filter (fun r => (2 <= length (Index.find_filepaths_for_hash idx
                                                     (sqlite3.md5hash r)))%nat)
                     (Index.table idx)) ->
      dedupsize idx
      = Some (foldr Z.add 0%Z
                (sqlite3.filesize
                   <$> filter (fun r => (2 <= length (Index.find_filepaths_for_hash idx
                                                         (sqlite3.md5hash r)))%nat)
                         (Index.table idx)))).
Proof.
  split.
  - apply size_step_nonempty, Forall_forall. intros [k es] Hin.
    apply duplicate_entries_elem in Hin as (g & -> & Hne & _). simpl. by destruct g.
  - rewrite (list_filter_iff _
               (fun r => sqlite3.md5hash r ∈ Index.having_count_gt_1 (Index.table idx)))
      by (intros r; apply count_shared_hash).
    intros Hnd.
    assert (Index.select_duplicates (Index.table idx)
            ≡ₚ filter (fun r => sqlite3.md5hash r ∈ Index.having_count_gt_1 (Index.table idx))
                 (Index.table idx)) as Hperm by apply sorted_Permutation.
    unfold dedupsize, Index.duplicate_entries.
    rewrite (groupby_distinct_keys (fun item : sqlite3.Row => item.1.1))
      by (by rewrite Hperm).
    rewrite <- list_fmap_compose. rewrite dict_of_NoDup.
    + rewrite (size_step_singletons _ 0). f_equal. rewrite Z.add_0_l.
      apply foldr_add_Permutation. by rewrite Hperm.
    + rewrite <- list_fmap_compose. by rewrite Hperm.
Qed.

Lemma dedupsize_total_witness :
  dedupsize (Index.from_rows [("a/x.txt", 5%Z, "5d41"); ("c.txt", 7%Z, "9a0b");
                              ("b/x.txt", 5%Z, "5d41")] "root")
  = Some 10%Z.
Proof.
  apply (proj2 (dedupsize_total
                  (Index.from_rows [("a/x.txt", 5%Z, "5d41"); ("c.txt", 7%Z, "9a0b");
                                    ("b/x.txt", 5%Z, "5d41")] "root"))).
  vm_compute. repeat constructor.
  - intros H. apply list_elem_of_singleton in H. discriminate H.
  - apply not_elem_of_nil.
Defined.

End dedupsize_facts.

(** ** More on the ancestor walk *)
Section more_path_split_all.
Import index main.

Local Arguments String.append !_ _ / : simpl nomatch.

Lemma split_head_prefix (p : string) : exists rest, p = (posixpath.split p).1 +:+ rest.
Proof.
  destruct (rfind_decompose posixpath.sep p) as [Hn|(a & x & -> & Hx)].
  { rewrite split_no_sep by done. by exists p. }
  rewrite split_sep by done. simpl. case_decide.
  - exists x. by rewrite append_assoc.
  - destruct (rstrip_prefix posixpath.sep a) as [rest Hrest].
    exists (rest +:+ String posixpath.sep x). rewrite <- append_assoc. by rewrite <- Hrest.
Qed.

Lemma path_split_all_loop_parts (fuel : nat) (p : string) (l r : list string) :
  relative p -> path_split_all_loop fuel p l = Some r ->
  exists parts,
    r = l ++ parts
    /\ Forall (fun q => q <> "" /\ relative q
                        /\ (String.length q < String.length p)%nat
                        /\ exists rest, p = q +:+ rest) parts
    /\ StronglySorted (fun a b => (String.length b < String.length a)%nat) parts.
Proof.
  revert p l. induction fuel as [|fuel IH]; intros p l Hrel Hr; [done|].
  simpl in Hr. destruct (split_head_prefix p) as [rest Hrest].
  destruct (posixpath.split p) as [h t] eqn:Hsplit. simpl in Hrest.
  case_decide as Hh.
  { simplify_eq. exists []. rewrite app_nil_r. split_and!; [done|constructor..]. }
  destruct (split_head_relative p h t Hrel Hsplit Hh) as [Hrelh Hlenh].
  destruct (IH h (l ++ [h]) Hrelh Hr) as (parts & -> & Hall & Hsorted).
  exists (h :: parts). rewrite <- app_assoc. split_and!; [done|..].
  - constructor; [by eauto|]. eapply Forall_impl; [exact Hall|].
    intros q (Hq & Hrq & Hlq & rest' & Hh'). split_and!; [done..|lia|].
    exists (rest' +:+ rest). rewrite <- append_assoc. by rewrite <- Hh'.
  - constructor; [done|]. eapply Forall_impl; [exact Hall|]. intros q (_ & _ & ? & _). done.
Qed.

(** X9.  When the ancestor walk returns, the path is relative, and every
    directory it returns is a relative, non-empty, proper prefix of the
    path, each shorter than the one before; a path without separator has
    none. *)
Theorem path_split_all_parts (fuel : nat) (p : string) (parts : list string) :
  path_split_all fuel p = Some parts ->
  relative p
  /\ Forall (fun q => q <> "" /\ relative q
                      /\ (String.length q < String.length p)%nat
                      /\ exists rest, p = q +:+ rest) parts
  /\ StronglySorted (fun a b => (String.length b < String.length a)%nat) parts
  /\ (py.rfind posixpath.sep p = (-1)%Z -> parts = []).
Proof.
  intros Hp. pose proof (path_split_all_Some_relative _ _ _ Hp) as Hrel.
  destruct (path_split_all_loop_parts fuel p [] parts Hrel Hp) as (parts' & -> & Hall & Hs).
  split_and!; [done..|]. intros Hn.
  destruct fuel as [|fuel]; [done|]. unfold path_split_all in Hp. simpl in Hp.
  rewrite split_no_sep in Hp by done. rewrite decide_True in Hp by done. by simplify_eq.
Qed.

Lemma path_split_all_parts_witness :
  Forall (fun q => q <> "" /\ relative q
                   /\ (String.length q < String.length "a/b//c.txt")%nat
                   /\ exists rest, "a/b//c.txt" = q +:+ rest) ["a/b"; "a"].
Proof.
  apply (path_split_all_parts 10 "a/b//c.txt" ["a/b"; "a"] eq_refl).
Defined.

End more_path_split_all.

(** ** More on the directory aggregator *)
Section more_aggregator.
Import index main.

Variable md5_hexdigest : string -> string.

(** X10.  In the report of [eval_dir_dups] the hashes strictly ascend;
    the group of a hash has at least two directories, none twice, and
    they are exactly the directories whose composite hash it is and
    whose parent, if they have one, has another composite hash or none. *)
Theorem eval_dir_dups_groups fuel (idx : Index.t) report :
  eval_dir_dups md5_hexdigest fuel idx = Some report ->
  let unpruned (p h : string) :=
    dir_hash md5_hexdigest fuel idx p = Some h
    /\ (posixpath.dirname p = ""
        \/ dir_hash md5_hexdigest fuel idx (posixpath.dirname p) <> Some h) in
  StronglySorted (strict String.le) (py.keys report)
  /\ (forall h paths, (h, paths) ∈ report ->
        (2 <= length paths)%nat /\ NoDup paths
        /\ forall p, p ∈ paths <-> unpruned p h)
  /\ (forall h p q, p <> q -> unpruned p h -> unpruned q h ->
        exists paths, (h, paths) ∈ report).
Proof.
  intros Hreport unpruned.
  destruct (eval_dir_dups_kept md5_hexdigest fuel idx report Hreport) as [Hgroups Hkey].
  apply eval_dir_dups_Some in Hreport as (d & _ & _ & -> & _).
  split_and!; [apply find_duplicates_unfold|exact Hgroups|exact Hkey].
Qed.

End more_aggregator.

Lemma eval_dir_dups_groups_witness :
  (2 <= length ["a"; "d"])%nat /\ NoDup ["a"; "d"]
  /\ dir_hash (fun data => data) 20 scenarios.nested_index "d" = Some "5d41".
Proof.
  destruct (eval_dir_dups_groups (fun data => data) 20 scenarios.nested_index
              [("5d41", ["a"; "d"])] eq_refl) as (_ & Hg & _).
  destruct (Hg "5d41" ["a"; "d"]) as (Hlen & Hnd & Hmem); [left|].
  split_and!; [done..|]. apply Hmem. right. left.
Defined.

(** ** What a composite hash is made of *)
Section composite_hash.
Import index main.

Variable md5_hexdigest : string -> string.

Local Arguments String.append !_ _ / : simpl nomatch.

Implicit Types (d : py.dict string) (e : Entry) (es : list Entry).

Local Abbreviation feed_step fuel :=
  (fun (acc : option (py.dict string)) (entry : Entry) => d ← acc; feed_entry fuel d entry).

Lemma feed_all_filter_noise fuel es (acc : option (py.dict string)) :
  foldl (feed_step fuel) acc (filter (fun e => ~ noise e) es)
  = foldl (feed_step fuel) acc es.
Proof.
  revert acc. induction es as [|e es IH]; intros acc; [done|].
  rewrite filter_cons. destruct (decide (~ noise e)) as [Hn|Hn]; simpl.
  - apply IH.
  - rewrite IH. f_equal. destruct acc as [d|]; simpl; [|done].
    rewrite feed_entry_noise; [done|]. by destruct (decide (noise e)).
Qed.

Lemma fmap_filter_comm {A B : Type} (f : A -> B) (P : B -> Prop)
    `{!forall y, Decision (P y)} `{!forall x, Decision (P (f x))} (l : list A) :
  f <$> filter (fun x => P (f x)) l = filter P (f <$> l).
Proof.
  induction l as [|x l IH]; [done|]. csimpl. rewrite !filter_cons.
  destruct (decide (P (f x))) as [Hp|Hp].
  - rewrite decide_True by done. csimpl. by rewrite IH.
  - rewrite decide_False by done. by rewrite IH.
Qed.

(** X11.  Rows whose file name is [thumbs.db], in any case of the
    letters, do not count: [eval_dir_dups] gives the same answer on the
    index without them. *)
Theorem eval_dir_dups_ignores_noise fuel (idx : Index.t) :
  eval_dir_dups md5_hexdigest fuel
    (Index.from_rows (filter (fun r => ~ noise (Entry_of_row r)) (Index.table idx))
       (Index.root idx))
  = eval_dir_dups md5_hexdigest fuel idx.
Proof.
  unfold eval_dir_dups. f_equal. unfold feed_all, Index.entries.
  change (Index.table (Index.from_rows ?tbl _)) with tbl.
  etrans; [|apply feed_all_filter_noise]. f_equal.
  apply (fmap_filter_comm Entry_of_row (fun e => ~ noise e)).
Qed.

Lemma feed_all_get fuel es (dir : string) :
  forall d d',
    foldl (feed_step fuel) (Some d) es = Some d' ->
    py.dict_get d' dir
    = match filter (fun e => is_beneath fuel dir e = true) es with
      | [] => py.dict_get d dir
      | fed => Some (default "" (py.dict_get d dir)
                     +:+ String.concat "" (md5Hash <$> fed))
      end.
Proof.
  induction es as [|e es IH]; intros d d' Hd; simpl in Hd; [by simplify_eq|].
  destruct (feed_entry fuel d e) as [d1|] eqn:Hf; [|by rewrite feed_None in Hd].
  rewrite (IH d1 d' Hd). rewrite filter_cons.
  destruct (decide (noise e)) as [Hn|Hn].
  { rewrite feed_entry_noise in Hf by done. simplify_eq.
    assert (is_beneath fuel dir e = false) as Hb.
    { unfold is_beneath. by rewrite (bool_decide_eq_false_2 (~ noise e)) by tauto. }
    rewrite decide_False by (by rewrite Hb). done. }
  rewrite feed_entry_parts in Hf by done.
  destruct (path_split_all fuel (filePath e)) as [parts|] eqn:Hparts; simplify_eq/=.
  assert (is_beneath fuel dir e = bool_decide (dir ∈ parts)) as Hb.
  { unfold is_beneath. rewrite Hparts.
    by rewrite (bool_decide_eq_true_2 (~ noise e)) by done. }
  rewrite !dict_get_update_all by (by eapply path_split_all_NoDup).
  destruct (decide (dir ∈ parts)) as [Hin|Hin].
  - rewrite decide_True by (rewrite Hb; by apply bool_decide_eq_true_2).
    destruct (filter _ es) as [|e' fed]; simpl; [done|]. by rewrite append_assoc.
  - rewrite decide_False; [done|]. rewrite Hb. by rewrite bool_decide_eq_false_2.
Qed.

(** X12.  When [eval_dir_dups] returns, the composite hash of a
    directory is the digest of the hashes, one after the other in
    storage order, of the rows beneath it that are not noise; a
    directory with no such row has no composite hash. *)
Theorem dir_hash_fed fuel (idx : Index.t) (dir : string) :
  is_Some (eval_dir_dups md5_hexdigest fuel idx) ->
  dir_hash md5_hexdigest fuel idx dir
  = match filter (fun e => is_beneath fuel dir e = true) (Index.entries idx) with
    | [] => None
    | fed => Some (md5_hexdigest (String.concat "" (md5Hash <$> fed)))
    end.
Proof.
  intros [report Hr]. unfold eval_dir_dups, dir_hash in *.
  destruct (feed_all fuel (Index.entries idx)) as [d|] eqn:Hd; [|done]. simpl.
  pose proof (feed_all_keys_NoDup fuel (Index.entries idx) [] d (NoDup_nil_2) Hd) as Hnd.
  rewrite eval_hashes_unfold, dict_get_fmap_values by done.
  rewrite (feed_all_get fuel (Index.entries idx) dir [] d Hd). simpl.
  by destruct (filter _ (Index.entries idx)).
Qed.

End composite_hash.

Lemma dir_hash_fed_witness :
  dir_hash (fun data => data) 20
    (index.Index.from_rows
       [("a/x.txt", 1%Z, "h1"); ("b/y.txt", 1%Z, "h2"); ("a/s/z.txt", 1%Z, "h3");
        ("a/Thumbs.db", 1%Z, "h4")] "root") "a"
  = Some "h1h3".
Proof.
  apply (dir_hash_fed (fun data => data) 20
           (index.Index.from_rows
              [("a/x.txt", 1%Z, "h1"); ("b/y.txt", 1%Z, "h2"); ("a/s/z.txt", 1%Z, "h3");
               ("a/Thumbs.db", 1%Z, "h4")] "root") "a").
  vm_compute. eexists. reflexivity.
Defined.

(** ** What a walk inserts *)
Section walk_rows.
Import index main.

Variable md5_hexdigest : string -> string.
Variable relpath : string -> string -> string.

Local Abbreviation index_entry := (main.index_entry md5_hexdigest relpath).
Local Abbreviation index_dir := (main.index_dir md5_hexdigest relpath).


(** The rows of accepted files that can be opened. *)
Local Abbreviation from_accepted filter_ root :=
  (fun r : sqlite3.Row =>
     exists path bytes,
       Filter.test filter_ path = true
       /\ r = (relpath path root, Z.of_nat (String.length bytes), md5_hexdigest bytes)
       /\ storable (Entry_of_row r)).

Local Abbreviation walk_ok filter_ :=
  (fun (idx : Index.t) (res : Index.t * option py.exception) =>
     Index.root res.1 = Index.root idx
     /\ forall r, r ∈ Index.table res.1 ->
          r ∈ Index.table idx \/ from_accepted filter_ (Index.root idx) r).





(** The entry that [entry_for_path] makes of a path and the bytes found
    there. *)
Local Abbreviation entry_of root :=
  (fun file : string * string =>
     {| filePath := relpath file.1 root;
        fileSize := Z.of_nat (String.length file.2);
        md5Hash := md5_hexdigest file.2 |}).

(** The index after the entries were added, one after the other. *)
Local Abbreviation added :=
  (foldl (fun (idx : Index.t) (e : Entry) => (Index.add idx e).1)).

Lemma root_added (idx : Index.t) (es : list Entry) :
  Index.root (added idx es) = Index.root idx.
Proof.
  revert idx. induction es as [|e es IH]; intros idx; simpl; [done|].
  rewrite IH. apply committed_add.
Qed.

Lemma table_added (idx : Index.t) (es : list Entry) :
  Forall storable es ->
  Index.table (added idx es) = Index.table idx ++ (tuple_getter <$> es).
Proof.
  intros Hes. revert idx. induction Hes as [|e es He _ IH]; intros idx; simpl.
  - by rewrite app_nil_r.
  - rewrite IH, table_add, <- app_assoc by done. done.
Qed.

Lemma for_each_readable (body : DirEntry -> Index.t -> Index.t * option py.exception)
    (files : DirEntry -> list (string * string)) (root : string) (listing : list DirEntry) :
  Forall (fun entry => forall idx,
            Index.root idx = root ->
            body entry idx = (added idx (entry_of root <$> files entry), None))
    listing ->
  forall idx,
    Index.root idx = root ->
    for_each body listing idx
    = (added idx (entry_of root <$> flat_map files listing), None).
Proof.
  induction 1 as [|entry listing He _ IH]; intros idx Hroot; simpl; [done|].
  rewrite He, IH, fmap_app, foldl_app by (by rewrite ?root_added). done.
Qed.

Lemma index_entry_readable (root : string) (entry : DirEntry) :
  readable entry = true ->
  forall dir idx,
    Index.root idx = root ->
    Forall storable (entry_of root <$> files_of dir entry) ->
    index_entry (Filter.init [] []) dir entry idx
    = (added idx (entry_of root <$> files_of dir entry), None).
Proof.
  induction entry as [n data|n|n listing IH|n] using DirEntry_nested_ind;
    intros Hr dir idx Hroot Hst; simpl in *; try done.
  - destruct data as [bytes|]; [|done]. simpl in *.
    apply Forall_cons in Hst as [Hst _]. rewrite Hroot.
    by rewrite add_storable.
  - revert idx Hroot. rewrite forallb_forall in Hr. rewrite Forall_forall in IH.
    induction listing as [|e listing IHl]; intros idx Hroot; simpl in *; [done|].
    rewrite fmap_app, Forall_app in Hst. destruct Hst as [Hst1 Hst2].
    rewrite (IH e (list_elem_of_here _ _) (Hr e (or_introl eq_refl)) _ idx Hroot Hst1).
    rewrite fmap_app, foldl_app. apply IHl.
    + intros x Hx. apply IH. by right.
    + intros x Hx. apply Hr. by right.
    + done.
    + by rewrite root_added.
Qed.

(** X14.  The command [index] creates its database file in the root
    before it lists the root, so the listing has that file.  Without
    patterns, on a tree in which every file can be opened, every
    directory listed and every row bound, the command returns 0 and
    leaves in the store one row for each regular file of the tree, in the
    order of the depth-first walk, and nothing else; the database file
    has a row of its own. *)
Theorem index_all_files (root : string) (before after : list DirEntry) (db : string) :
  let listing := before ++ File "filebulk-index.db" (Some db) :: after in
  let row := fun file : string * string =>
    (relpath file.1 root, Z.of_nat (String.length file.2), md5_hexdigest file.2) in
  forallb readable listing = true ->
  Forall (fun file => storable (Entry_of_row (row file))) (flat_map (files_of root) listing) ->
  main.index md5_hexdigest relpath root (Some listing) [] []
  = ({| sqlite3.committed :=
          (row <$> flat_map (files_of root) before)
          ++ row (posixpath.join root "filebulk-index.db", db)
          :: (row <$> flat_map (files_of root) after);
        sqlite3.pending := None |},
     inr 0%Z).
Proof.
  intros listing row Hr Hst.
  assert (Forall storable (entry_of root <$> flat_map (files_of root) listing)) as Hst'.
  { apply Forall_fmap. eapply Forall_impl; [exact Hst|]. by intros [path bytes]. }
  unfold main.index. simpl.
  rewrite (for_each_readable _ (files_of root) root).
  - simpl. f_equal. unfold sqlite3.commit. f_equal.
    change (sqlite3.rows (Index.conn ?i)) with (Index.table i).
    rewrite table_added by done. simpl. rewrite <- list_fmap_compose.
    unfold listing. rewrite flat_map_app, fmap_app. done.
  - rewrite forallb_forall in Hr. apply Forall_forall. intros e He idx Hroot.
    apply index_entry_readable; [by apply Hr, list_elem_of_In|done|].
    rewrite Forall_forall in Hst'. apply Forall_forall. intros x Hx. apply Hst'.
    apply list_elem_of_fmap in Hx as (file & -> & Hfile).
    apply list_elem_of_fmap. exists file. split; [done|].
    apply list_elem_of_In, in_flat_map. exists e.
    split; by apply list_elem_of_In.
  - done.
Qed.

End walk_rows.

Lemma index_all_files_witness :
  main.index (fun data => data) (fun path start => path) "root"
    (Some [main.File "f" (Some "abc");
           main.File "filebulk-index.db" (Some "SQLite format 3");
           main.Dir "d" (Some [main.Other "sock"; main.File "g" (Some "xy")]);
           main.Dir "empty" (Some [])]) [] []
  = ({| sqlite3.committed :=
          [("root/f", 3%Z, "abc"); ("root/filebulk-index.db", 15%Z, "SQLite format 3");
           ("root/d/g", 2%Z, "xy")];
        sqlite3.pending := None |}, inr 0%Z).
Proof.
  apply (index_all_files (fun data => data) (fun path start => path) "root"
           [main.File "f" (Some "abc")]
           [main.Dir "d" (Some [main.Other "sock"; main.File "g" (Some "xy")]);
            main.Dir "empty" (Some [])]
           "SQLite format 3").
  - reflexivity.
  - repeat constructor; simpl; lia.
Defined.


(** A file whose name is not UTF-8 ends the build: [add] raises, and the
    row inserted before is rolled back with the session. *)
Example index_session_refused :
  main.index (fun data => data) (fun path start => path) "root"
    (Some [main.File "a" (Some "abc"); main.File (String "255" "b") (Some "xy")]) [] []
  = ({| sqlite3.committed := []; sqlite3.pending := None |}, inl py.UnicodeEncodeError).
Proof. reflexivity. Qed.

(** ** [prefix_dedup] *)
Section prefix_dedup_facts.
Import main.

Lemma prefix_dedup_foldl (l : list string) (X : gset string) :
  foldl (fun (result : gset string) (value : string) =>
           let _ := foldl (fun (_ : unit) (entry : string) =>
                             if py.startswith_str value entry then tt else tt)
                      tt (elements result) in
           {[ value ]} ∪ result) X l
  = list_to_set l ∪ X.
Proof.
  revert X. induction l as [|x l IH]; intros X.
  - apply set_eq. intros y. rewrite elem_of_union, list_to_set_nil, elem_of_empty. simpl. tauto.
  - cbn [foldl]. cbv zeta. etrans; [apply IH|]. apply set_eq. intros y.
    rewrite list_to_set_cons, !elem_of_union, elem_of_singleton. tauto.
Qed.

(** X15.  [prefix_dedup] sorts its argument and returns the set of all
    its values: a value that starts with a value already in the result
    is added all the same. *)
Theorem prefix_dedup_keeps_all (inp : list string) :
  (prefix_dedup inp).1 ≡ₚ inp
  /\ StronglySorted String.le (prefix_dedup inp).1
  /\ (prefix_dedup inp).2 = list_to_set inp.
Proof.
  unfold prefix_dedup. simpl. split_and!.
  - apply sorted_Permutation.
  - apply (sorted_StronglySorted (fun value : string => value)).
  - rewrite prefix_dedup_foldl. apply set_eq. intros y.
    rewrite elem_of_union, elem_of_empty, !elem_of_list_to_set, elem_of_sorted. tauto.
Qed.

End prefix_dedup_facts.

(** ** Patterns without wildcard *)
Section literal_patterns.
Import index.

Lemma fnmatchcase_literal (pat : string) :
  literal pat = true -> forall s, fnmatch.fnmatchcase s pat = true <-> s = pat.
Proof.
  unfold fnmatch.fnmatchcase, fnmatch.translate.
  induction pat as [|c pat IH]; intros Hl s; simpl.
  { by rewrite bool_decide_eq_true. }
  simpl in Hl. apply andb_true_iff in Hl as [Hc Hl].
  apply negb_true_iff, bool_decide_eq_false in Hc. rewrite !elem_of_cons in Hc.
  rewrite !decide_False by tauto. simpl.
  destruct s as [|a s]; [done|].
  rewrite andb_true_iff, bool_decide_eq_true, (IH Hl). split.
  - by intros [-> ->].
  - by intros [= -> ->].
Qed.

(** X16.  An include pattern without [*], [?] and [[] accepts the path
    equal to it, letter for letter, and no other: not the path of a file
    of that name in some directory. *)
Theorem Filter_test_literal (pat path : string) :
  literal pat = true ->
  Filter.test (Filter.init [pat] []) path = true <-> path = pat.
Proof.
  intros Hl. rewrite Filter_test_unfold. simpl.
  rewrite orb_false_r. by apply fnmatchcase_literal.
Qed.

Lemma Filter_test_literal_witness :
  Filter.test (Filter.init ["notes.txt"] []) "notes.txt" = true
  /\ Filter.test (Filter.init ["notes.txt"] []) "docs/notes.txt" <> true.
Proof.
  split.
  - by apply (Filter_test_literal "notes.txt" "notes.txt" eq_refl).
  - intros H. by apply (Filter_test_literal "notes.txt" "docs/notes.txt" eq_refl) in H.
Defined.

End literal_patterns.

(** ** The underscore in a pattern *)
Section underscore.
Import index.

Local Arguments String.append !_ _ / : simpl nomatch.

Lemma rfind_cons_none (c a : ascii) (s : string) :
  py.rfind c (String a s) = (-1)%Z <-> a <> c /\ py.rfind c s = (-1)%Z.
Proof.
  simpl. pose proof (rfind_bounds c s).
  destruct (0 <=? py.rfind c s)%Z eqn:Hk.
  - apply Z.leb_le in Hk. split; [lia|]. intros [_ ?]. lia.
  - apply Z.leb_gt in Hk. case_decide; split; try done; try lia.
    + by intros [? _].
    + intros _. split; [done|lia].
Qed.

Lemma whitecard_to_like_step (c : ascii) (pat : string) :
  c <> "%"%char -> c <> "*"%char -> c <> "?"%char ->
  _whitecard_to_like (String c pat)
  = (if decide (c = "_"%char) then "__" else String c "") +:+ _whitecard_to_like pat.
Proof.
  intros H1 H2 H3. unfold _whitecard_to_like. simpl.
  rewrite decide_False by done. simpl.
  destruct (decide (c = "_"%char)) as [->|H4]; simpl; [done|].
  rewrite (decide_False (P:=c = "*"%char)) by done. simpl.
  by rewrite (decide_False (P:=c = "?"%char)) by done.
Qed.

Lemma like_no_percent_length (w s : string) :
  py.rfind "%" w = (-1)%Z -> sqlite3.like w s = true -> String.length s = String.length w.
Proof.
  revert s. induction w as [|p w IH]; intros s Hw Hl; simpl in Hl.
  { apply bool_decide_eq_true in Hl. by subst. }
  apply rfind_cons_none in Hw as [Hp Hw].
  rewrite decide_False in Hl by done.
  destruct s as [|a s]; [by case_decide|]. simpl. f_equal. apply IH; [done|].
  case_decide; [done|]. by apply andb_true_iff in Hl as [_ ?].
Qed.

Lemma whitecard_to_like_grows (pat : string) :
  py.rfind "%" pat = (-1)%Z -> py.rfind "*" pat = (-1)%Z -> py.rfind "?" pat = (-1)%Z ->
  py.rfind "%" (_whitecard_to_like pat) = (-1)%Z
  /\ (String.length pat <= String.length (_whitecard_to_like pat))%nat
  /\ (py.rfind "_" pat <> (-1)%Z ->
      (String.length pat < String.length (_whitecard_to_like pat))%nat).
Proof.
  induction pat as [|c pat IH]; [done|].
  intros [H1 Hp1]%rfind_cons_none [H2 Hp2]%rfind_cons_none [H3 Hp3]%rfind_cons_none.
  destruct (IH Hp1 Hp2 Hp3) as (Hn & Hle & Hlt).
  rewrite whitecard_to_like_step by done.
  destruct (decide (c = "_"%char)) as [->|H4].
  - change ("__" +:+ _whitecard_to_like pat)
      with (String "_" (String "_" (_whitecard_to_like pat))).
    rewrite !rfind_cons_none. cbn [String.length]. split_and!; [done..|lia|lia].
  - change (String c "" +:+ _whitecard_to_like pat)
      with (String c (_whitecard_to_like pat)).
    rewrite rfind_cons_none. cbn [String.length]. split_and!; [done|done|lia|].
    intros Hu. assert (py.rfind "_" pat <> (-1)%Z) as Hu'.
    { intros Hn'. apply Hu. by apply rfind_cons_none. }
    specialize (Hlt Hu'). lia.
Qed.

(** X17.  The underscore is not quoted for [LIKE]: for an include
    pattern without [*], [?], [%] and [[] that has an underscore and
    can be spliced into the statement, [test] accepts the path equal to
    the pattern, while the SQL condition rejects the row of that path,
    so [unique_hashes] does not yield the hash of a file that only such
    a row holds. *)
Theorem underscore_pattern (pat : string) (size : Z) (hash : string) :
  quotable pat = true ->
  literal pat = true -> py.rfind "%" pat = (-1)%Z -> py.rfind "_" pat <> (-1)%Z ->
  Filter.test (Filter.init [pat] []) pat = true
  /\ sqlite3.eval (Filter.sql (Filter.init [pat] [])) (pat, size, hash) = false
  /\ hash ∉ Index.unique_hashes (Index.from_rows [(pat, size, hash)] "root")
             (Filter.init [pat] []).
Proof.
  intros _ Hl Hp Hu.
  assert (py.rfind "*" pat = (-1)%Z /\ py.rfind "?" pat = (-1)%Z) as [Hs Hq].
  { clear Hp Hu. induction pat as [|c pat IH]; [done|].
    simpl in Hl. apply andb_true_iff in Hl as [Hc Hl].
    apply negb_true_iff, bool_decide_eq_false in Hc. rewrite !elem_of_cons in Hc.
    destruct (IH Hl). rewrite !rfind_cons_none. tauto. }
  destruct (whitecard_to_like_grows pat Hp Hs Hq) as (Hn & _ & Hlt).
  assert (sqlite3.like (_whitecard_to_like pat) pat = false) as Hlike.
  { destruct (sqlite3.like (_whitecard_to_like pat) pat) eqn:Hlike; [|done].
    apply like_no_percent_length in Hlike; [|done]. specialize (Hlt Hu). lia. }
  assert (sqlite3.eval (Filter.sql (Filter.init [pat] [])) (pat, size, hash) = false) as He.
  { rewrite Filter_sql_unfold. simpl. unfold sqlite3.filepath. simpl. by rewrite Hlike. }
  split_and!; [|done|].
  { rewrite Filter_test_unfold. simpl. rewrite orb_false_r. by apply fnmatchcase_literal. }
  unfold Index.unique_hashes. rewrite elem_of_list_to_set.
  change (Index.table (Index.from_rows ?tbl _)) with tbl.
  rewrite filter_cons_False by (by rewrite He). rewrite filter_nil. apply not_elem_of_nil.
Qed.

Lemma underscore_pattern_witness :
  sqlite3.eval (Filter.sql (Filter.init ["my_file.txt"] [])) ("my_file.txt", 3%Z, "0cc1") = false.
Proof.
  apply (underscore_pattern "my_file.txt" 3 "0cc1").
  - reflexivity.
  - reflexivity.
  - reflexivity.
  - discriminate.
Defined.

End underscore.

(** ** What [print_dict_result] prints *)
Section printing.
Import main.

Local Abbreviation group_lines :=
  (fun item : string * list string =>
     ("== " +:+ item.1 +:+ " ==") :: ((fun dup => String "009" dup) <$> item.2)).

Lemma print_dict_loop_closed (i : nat) (items : list (string * list string)) (n : nat) :
  (i <= 501)%nat ->
  print_dict_loop i items n
  = flat_map group_lines (take (501 - i) items)
    ++ (if decide (501 - i < length items)%nat
        then [".. and " +:+ pretty (Z.of_nat n - 500)%Z +:+ " more elements .."]
        else []).
Proof.
  revert i. induction items as [|[hash dups] items IH]; intros i Hi.
  { cbn [print_dict_loop length]. rewrite take_nil.
    by rewrite decide_False by lia. }
  cbn [print_dict_loop]. destruct (500 <? i)%nat eqn:Hlt.
  - apply Nat.ltb_lt in Hlt. replace (501 - i)%nat with 0%nat by lia.
    by rewrite decide_True by (cbn [length]; lia).
  - apply Nat.ltb_ge in Hlt. rewrite IH by lia.
    replace (501 - i)%nat with (S (501 - S i)) by lia.
    cbn [take flat_map length]. rewrite <- app_assoc. cbn [app]. do 2 f_equal.
    f_equal. destruct (decide (501 - S i < length items)%nat);
      [by rewrite decide_True by lia|by rewrite decide_False by lia].
Qed.

(** X18.  [print_dict_result] prints the groups of the first 501 keys,
    each as a header line followed by one line for each path; when there
    are more keys it adds one line that tells [len(d) - 500] more
    elements, though 501 groups were printed; the last line is always
    the number of keys. *)
Theorem print_dict_result_lines (d : py.dict (list string)) :
  print_dict_result d
  = flat_map group_lines (take 501 d)
    ++ (if decide (501 < length d)%nat
        then [".. and " +:+ pretty (Z.of_nat (length d) - 500)%Z +:+ " more elements .."]
        else [])
    ++ ["-> " +:+ pretty (length d)].
Proof.
  unfold print_dict_result. rewrite print_dict_loop_closed by lia.
  by rewrite <- app_assoc.
Qed.

End printing.

Example print_dict_result_ex :
  main.print_dict_result [("5d41", ["a/x.txt"; "b/x.txt"])]
  = ["== 5d41 =="; String "009" "a/x.txt"; String "009" "b/x.txt"; "-> 1"].
Proof. reflexivity. Qed.
